(** * Wallet attendance system: a shallow embedding of [app.py]

    The development follows the layout of the Python module: configuration
    constants, the Ed25519 helpers, the time-slot and QR payload generation,
    and the two JSON handlers [api_register] and [api_attendance].

    Modelling conventions.
    - A Python [str] is a Rocq [string] whose characters are code points
      below 256; [bytes] is [list Byte.byte].
    - [time.time()] returns a float; it is idealised as a rational number.
    - The JSON files under [data/] and the module-level dictionary
      [recent_qr_usage] form the record [world], threaded through the
      handlers.  Operating-system entropy is a counter of the key pairs
      drawn so far.
    - The [cryptography] and [base58] packages are an interface
      ([Ed25519Lib]); their failures are Python exceptions, modelled by the
      type [exc]. *)

From Stdlib Require Import ZArith QArith Qround Ascii String.
From stdpp Require Import base gmap strings list pretty.

Close Scope Q_scope.
Local Open Scope Z_scope.

(** ** Configuration *)

Definition INTERVAL : Z := 10.
Definition QR_GRACE_PERIOD : Z := 30.
Definition QR_REUSE_WINDOW : Z := 300.

(** ** Python built-ins used by the module *)

(** [str.isspace] on the code points below 256. *)
Definition py_isspace (c : ascii) : bool :=
  let n := N_of_ascii c in
  ((9 <=? n) && (n <=? 13) || (28 <=? n) && (n <=? 32)
   || (n =? 133) || (n =? 160))%N.

Fixpoint lstrip (s : string) : string :=
  match s with
  | EmptyString => EmptyString
  | String c s' => if py_isspace c then lstrip s' else s
  end.

Fixpoint rstrip (s : string) : string :=
  match s with
  | EmptyString => EmptyString
  | String c s' =>
      match rstrip s' with
      | EmptyString => if py_isspace c then EmptyString else String c EmptyString
      | t => String c t
      end
  end.

(** [s.strip()] *)
Definition strip (s : string) : string := rstrip (lstrip s).

(** Truthiness of a string: [not s] holds exactly for the empty string. *)
Definition py_not (s : string) : bool := bool_decide (s = EmptyString).

(** [int(x)] on a float truncates towards zero. *)
Definition py_int (x : Q) : Z :=
  if Qle_bool 0 x then Qfloor x else Qceiling x.

(** [x // n] on a float and an integer: the floor of the quotient, as a float. *)
Definition py_floordiv (x : Q) (n : Z) : Q :=
  inject_Z (Qfloor (x / inject_Z n)%Q).

(** [s.encode("utf-8")] for code points below 256. *)
Definition encode_utf8_char (c : ascii) : list Byte.byte :=
  let n := N_of_ascii c in
  if (n <? 128)%N then [byte_of_ascii c]
  else [byte_of_ascii (ascii_of_N (192 + n / 64));
        byte_of_ascii (ascii_of_N (128 + n mod 64))].

Fixpoint encode_utf8 (s : string) : list Byte.byte :=
  match s with
  | EmptyString => []
  | String c s' => encode_utf8_char c ++ encode_utf8 s'
  end.

(** [d.get(k, dflt)] on a field that may be absent from the JSON body. *)
Definition get_or {A} (field : option A) (dflt : A) : A :=
  match field with Some v => v | None => dflt end.

(** ** Exceptions *)

(** The exceptions the library calls of [verify_signature] raise on the
    arguments they are given ([base58] and [cryptography] report a malformed
    string, a wrong length and a failed verification this way), and the part
    of the class hierarchy they belong to. *)
Inductive exc : Type :=
  | InvalidSignature
  | ValueError
  | UnicodeEncodeError
  | TypeError.

Inductive pyclass : Type :=
  | ClsException
  | ClsInvalidSignature
  | ClsValueError
  | ClsUnicodeError
  | ClsUnicodeEncodeError
  | ClsTypeError.

Definition class_of (e : exc) : pyclass :=
  match e with
  | InvalidSignature => ClsInvalidSignature
  | ValueError => ClsValueError
  | UnicodeEncodeError => ClsUnicodeEncodeError
  | TypeError => ClsTypeError
  end.

(** Direct base class; [Exception] is the root of the modelled hierarchy. *)
Definition base_class (c : pyclass) : option pyclass :=
  match c with
  | ClsException => None
  | ClsInvalidSignature => Some ClsException
  | ClsValueError => Some ClsException
  | ClsUnicodeError => Some ClsValueError
  | ClsUnicodeEncodeError => Some ClsUnicodeError
  | ClsTypeError => Some ClsException
  end.

Definition pyclass_eqb (a b : pyclass) : bool :=
  match a, b with
  | ClsException, ClsException
  | ClsInvalidSignature, ClsInvalidSignature
  | ClsValueError, ClsValueError
  | ClsUnicodeError, ClsUnicodeError
  | ClsUnicodeEncodeError, ClsUnicodeEncodeError
  | ClsTypeError, ClsTypeError => true
  | _, _ => false
  end.

Fixpoint issubclass_fuel (fuel : nat) (c target : pyclass) : bool :=
  pyclass_eqb c target ||
  match fuel with
  | O => false
  | S fuel' =>
      match base_class c with
      | Some b => issubclass_fuel fuel' b target
      | None => false
      end
  end.

Definition isinstance (e : exc) (target : pyclass) : bool :=
  issubclass_fuel 4 (class_of e) target.

(** [except (cls1, cls2, ...)] *)
Definition except_matches (handled : list pyclass) (e : exc) : bool :=
  existsb (isinstance e) handled.

(** ** The signature library *)

Class Ed25519Lib := {
  privkey : Type;
  pubkey : Type;
  (** [base58.b58encode(b).decode("utf-8")] and [base58.b58decode(s)] *)
  b58encode : list Byte.byte → string;
  b58decode : string → exc + list Byte.byte;
  (** [Ed25519PrivateKey.generate()]: the key drawn at a given entropy state *)
  ed_generate : nat → privkey;
  ed_public_key : privkey → pubkey;
  ed_private_bytes : privkey → list Byte.byte;
  ed_public_bytes : pubkey → list Byte.byte;
  ed_from_public_bytes : list Byte.byte → exc + pubkey;
  ed_sign : privkey → list Byte.byte → list Byte.byte;
  (** [public_key.verify(signature, message)] returns [None] or raises *)
  ed_verify : pubkey → list Byte.byte → list Byte.byte → exc + unit;
}.

Section Crypto.
Context `{Ed25519Lib}.

Definition generate_ed25519_keypair (entropy : nat)
    : string * string * privkey * pubkey :=
  let private_key := ed_generate entropy in
  let public_key := ed_public_key private_key in
  let private_seed := ed_private_bytes private_key in
  let public_bytes := ed_public_bytes public_key in
  let private_key_full := private_seed ++ public_bytes in
  let private_key_b58 := b58encode private_key_full in
  let public_key_b58 := b58encode public_bytes in
  (private_key_b58, public_key_b58, private_key, public_key).

Definition sign_message (private_key : privkey) (message : string) : string :=
  let message_bytes := encode_utf8 message in
  let signature := ed_sign private_key message_bytes in
  b58encode signature.

(** The body of the [try] block of [verify_signature]. *)
Definition verify_signature_try (public_key_b58 message signature_b58 : string)
    : exc + bool :=
  match b58decode public_key_b58 with
  | inl e => inl e
  | inr public_bytes =>
      match ed_from_public_bytes public_bytes with
      | inl e => inl e
      | inr public_key =>
          let message_bytes := encode_utf8 message in
          match b58decode signature_b58 with
          | inl e => inl e
          | inr signature_bytes =>
              match ed_verify public_key signature_bytes message_bytes with
              | inl e => inl e
              | inr _ => inr true
              end
          end
      end
  end.

(** [try: ... except (InvalidSignature, Exception): return False]; an
    exception the handler does not match propagates to the caller. *)
Definition verify_signature (public_key_b58 message signature_b58 : string)
    : exc + bool :=
  match verify_signature_try public_key_b58 message signature_b58 with
  | inr b => inr b
  | inl e =>
      if except_matches [ClsInvalidSignature; ClsException] e
      then inr false
      else inl e
  end.
End Crypto.

(** ** QR code generation *)

(** [get_time_slot()], as a function of the clock reading. *)
Definition get_time_slot (time_time : Q) : Z :=
  py_int (py_floordiv time_time INTERVAL) * INTERVAL.

Record qr_data := {
  qr_message : string;
  qr_signature : string;
  qr_timestamp : Z;
  qr_server_public_key : string;
}.

(** ** Persistent data and handler state *)

(** One entry of [employees.json]. *)
Record employee := {
  emp_name : string;
  emp_email : string;
  emp_department : string;
  emp_public_key : string;
  emp_registered_at : string;
}.

(** One entry of [attendance.json]; [None] is JSON [null]. *)
Record attendance_record := {
  rec_emp_id : string;
  rec_employee_name : string;
  rec_date : string;
  rec_in_time : string;
  rec_in_timestamp : string;
  rec_out_time : option string;
  rec_out_timestamp : option string;
  rec_status : string;
  rec_qr_timestamp : Z;
  rec_verified : bool;
}.

(** [employees.json] is a JSON object: a dictionary in insertion order.
    [recent_qr_usage] is [{emp_id: {slot: timestamp}}]. *)
Record world := {
  employees : list (string * employee);
  attendance : list attendance_record;
  recent_qr_usage : gmap string (gmap Z Z);
  entropy : nat;
}.

(** The state of a fresh deployment: no data files, empty usage table. *)
Definition initial_world : world :=
  {| employees := []; attendance := []; recent_qr_usage := ∅; entropy := O |}.

(** ** JSON responses *)

Inductive json : Type :=
  | JBool (b : bool)
  | JStr (s : string)
  | JNull.

(** The dictionary passed to [jsonify]. *)
Definition response : Type := list (string * json).

Fixpoint jget (k : string) (r : response) : option json :=
  match r with
  | [] => None
  | (k', v) :: r' => if bool_decide (k' = k) then Some v else jget k r'
  end.

(** How a view function ends: it returns a response, lets an exception
    escape, or falls off its end (returning [None]). *)
Inductive outcome : Type :=
  | Respond (r : response)
  | Raise (e : exc)
  | NoResponse.

(** ** Request bodies *)

(** Body of [POST /api/register]; [None] is an absent key. *)
Record register_request := {
  reg_emp_id : option string;
  reg_name : option string;
  reg_email : option string;
  reg_department : option string;
}.

(** The [server_qr] object of a submission; [None] is an absent key. *)
Record server_qr_fields := {
  sq_message : option string;
  sq_signature : option string;
  sq_timestamp : option Z;
  sq_server_public_key : option string;
}.

(** Body of [POST /api/attendance].  [att_server_qr = None] stands for an
    absent or empty [server_qr] object (both are falsy); [att_confirm_checkout]
    is the truthiness of the [confirm_checkout] entry. *)
Record attendance_request := {
  att_server_qr : option server_qr_fields;
  att_public_key : option string;
  att_employee_signature : option string;
  att_confirm_checkout : bool;
}.

(** The clock readings of one run of [api_attendance]: the two calls of
    [time.time()] and the fields of [datetime.now()] the handler formats. *)
Record clock := {
  clk_time : Q;
  clk_slot_time : Q;
  clk_date : string;
  clk_hms : string;
  clk_iso : string;
}.

(** ** Lookups over the stored data *)

(** The loop over [employees.items()]: the first entry, in insertion order,
    whose public key equals the submitted one. *)
Fixpoint find_employee (emps : list (string * employee)) (public_key : string)
    : option (string * employee) :=
  match emps with
  | [] => None
  | (eid, emp_data) :: rest =>
      if bool_decide (emp_public_key emp_data = public_key)
      then Some (eid, emp_data)
      else find_employee rest public_key
  end.

(** [emp_id in employees] *)
Definition employee_registered (emps : list (string * employee)) (emp_id : string) : bool :=
  bool_decide (emp_id ∈ emps.*1).

Definition record_matches (emp_id current_date : string) (r : attendance_record) : Prop :=
  rec_emp_id r = emp_id ∧ rec_date r = current_date.

Global Instance record_matches_dec emp_id current_date r :
  Decision (record_matches emp_id current_date r).
Proof. unfold record_matches. apply _. Defined.

(** The loop over [attendance]: position and value of the first record of
    the employee for the day. *)
Definition find_record (att : list attendance_record) (emp_id current_date : string)
    : option (nat * attendance_record) :=
  list_find (record_matches emp_id current_date) att.

(** The freshness test: [time_diff > QR_GRACE_PERIOD or time_diff < -QR_GRACE_PERIOD]. *)
Definition qr_expired (time_diff : Z) : bool :=
  (QR_GRACE_PERIOD <? time_diff) || (time_diff <? - QR_GRACE_PERIOD).

(** The replay test of verification step 3. *)
Definition qr_replayed (usage : gmap string (gmap Z Z)) (confirm_checkout : bool)
    (emp_id : string) (time_slot current_time : Z) : bool :=
  negb confirm_checkout &&
  match usage !! emp_id with
  | Some slots =>
      match slots !! time_slot with
      | Some last_used => current_time - last_used <? QR_REUSE_WINDOW
      | None => false
      end
  | None => false
  end.

(** The statements after the attendance branches: record the use of the slot. *)
Definition track_qr_usage (usage : gmap string (gmap Z Z))
    (emp_id : string) (time_slot current_time : Z) : gmap string (gmap Z Z) :=
  let usage' :=
    match usage !! emp_id with
    | Some _ => usage
    | None => <[emp_id := ∅]> usage
    end in
  <[emp_id := <[time_slot := current_time]> (default ∅ (usage' !! emp_id))]> usage'.

(** ** The server *)

Section Server.
Context `{Ed25519Lib}.
(** The module-level server key pair, loaded or created at start-up. *)
Variable server_private_key : privkey.
Variable server_public_key_b58 : string.

(** [generate_qr_data()], before [json.dumps], at clock reading [time_time]. *)
Definition generate_qr_data (time_time : Q) : qr_data :=
  let timestamp := get_time_slot time_time in
  let message := "attendance:" +:+ pretty timestamp +:+ ":" +:+ server_public_key_b58 in
  let signature := sign_message server_private_key message in
  {| qr_message := message;
     qr_signature := signature;
     qr_timestamp := timestamp;
     qr_server_public_key := server_public_key_b58 |}.

(** *** [POST /api/register] *)

Definition register_required_response : response :=
  [("success", JBool false); ("message", JStr "Employee ID and Name are required")].

Definition register_duplicate_response (emp_id : string) : response :=
  [("success", JBool false);
   ("message", JStr ("Employee " +:+ emp_id +:+ " already registered"))].

Definition register_success_response
    (emp_id name public_key_b58 private_key_b58 : string) : response :=
  [("success", JBool true);
   ("message", JStr ("Employee " +:+ name +:+ " registered successfully"));
   ("emp_id", JStr emp_id);
   ("public_key", JStr public_key_b58);
   ("private_key", JStr private_key_b58)].

(** [now_iso] is [datetime.now().isoformat()] at the time of the call. *)
Definition api_register (w : world) (data : register_request) (now_iso : string)
    : outcome * world :=
  let emp_id := strip (get_or (reg_emp_id data) "") in
  let name := strip (get_or (reg_name data) "") in
  let email := strip (get_or (reg_email data) "") in
  let department := strip (get_or (reg_department data) "") in
  if py_not emp_id || py_not name then
    (Respond register_required_response, w)
  else
    let emps := employees w in
    if employee_registered emps emp_id then
      (Respond (register_duplicate_response emp_id), w)
    else
      let '(private_key_b58, public_key_b58, _, _) :=
        generate_ed25519_keypair (entropy w) in
      let emps' :=
        emps ++ [(emp_id, {| emp_name := name;
                             emp_email := email;
                             emp_department := department;
                             emp_public_key := public_key_b58;
                             emp_registered_at := now_iso |})] in
      (Respond (register_success_response emp_id name public_key_b58 private_key_b58),
       {| employees := emps';
          attendance := attendance w;
          recent_qr_usage := recent_qr_usage w;
          entropy := S (entropy w) |}).

(** *** [POST /api/attendance] *)

Definition failure (message : string) : response :=
  [("success", JBool false); ("message", JStr message)].

Definition missing_response : response := failure "Missing required data".
Definition unknown_employee_response : response :=
  failure "Employee not registered or invalid key".
Definition wrong_server_response : response := failure "Invalid QR code - wrong server".
Definition bad_qr_signature_response : response := failure "Invalid QR code signature".
Definition expired_response (time_diff : Z) : response :=
  failure ("QR code expired (age: " +:+ pretty time_diff +:+ "s)").
Definition replay_response : response := failure "QR code already used recently".
Definition bad_employee_signature_response : response :=
  failure "Invalid employee signature".

Definition checkout_response (employee : employee) (r : attendance_record)
    (out_time : string) : response :=
  [("success", JBool true);
   ("message", JStr "Check-out successful");
   ("employee_name", JStr (emp_name employee));
   ("action", JStr "check-out");
   ("in_time", JStr (rec_in_time r));
   ("out_time", JStr out_time);
   ("status", JStr "Present")].

Definition pending_response (employee : employee) (r : attendance_record)
    (out_time : string) : response :=
  [("success", JBool false);
   ("message", JStr "Confirm check-out");
   ("employee_name", JStr (emp_name employee));
   ("in_time", JStr (rec_in_time r));
   ("out_time", JStr out_time);
   ("status", JStr "Pending Check-out")].

Definition already_out_response (employee : employee) (r : attendance_record)
    (out_time : string) : response :=
  [("success", JBool false);
   ("message", JStr "Already checked out today");
   ("employee_name", JStr (emp_name employee));
   ("in_time", JStr (rec_in_time r));
   ("out_time", JStr out_time);
   ("status", JStr "Already Present")].

Definition checkin_response (employee : employee) (in_time : string) : response :=
  [("success", JBool true);
   ("message", JStr "Check-in successful");
   ("employee_name", JStr (emp_name employee));
   ("action", JStr "check-in");
   ("in_time", JStr in_time);
   ("status", JStr "Present")].

Definition set_attendance (w : world) (att : list attendance_record) : world :=
  {| employees := employees w;
     attendance := att;
     recent_qr_usage := recent_qr_usage w;
     entropy := entropy w |}.

Definition set_recent_qr_usage (w : world) (usage : gmap string (gmap Z Z)) : world :=
  {| employees := employees w;
     attendance := attendance w;
     recent_qr_usage := usage;
     entropy := entropy w |}.

(** The record after a confirmed check-out (updated in place in the list). *)
Definition close_record (r : attendance_record) (clk : clock) : attendance_record :=
  {| rec_emp_id := rec_emp_id r;
     rec_employee_name := rec_employee_name r;
     rec_date := rec_date r;
     rec_in_time := rec_in_time r;
     rec_in_timestamp := rec_in_timestamp r;
     rec_out_time := Some (clk_hms clk);
     rec_out_timestamp := Some (clk_iso clk);
     rec_status := "Present";
     rec_qr_timestamp := rec_qr_timestamp r;
     rec_verified := rec_verified r |}.

Definition new_record (emp_id : string) (employee : employee) (clk : clock)
    (qr_timestamp : Z) : attendance_record :=
  {| rec_emp_id := emp_id;
     rec_employee_name := emp_name employee;
     rec_date := clk_date clk;
     rec_in_time := clk_hms clk;
     rec_in_timestamp := clk_iso clk;
     rec_out_time := None;
     rec_out_timestamp := None;
     rec_status := "Present";
     rec_qr_timestamp := qr_timestamp;
     rec_verified := true |}.

(** "All Verifications Passed - Mark Attendance": the [if existing_record]
    statement.  [Some r] is a [return]; [None] would let control reach the
    statements that follow it. *)
Definition mark_attendance (w : world) (confirm_checkout : bool)
    (emp_id : string) (employee : employee) (qr_timestamp : Z) (clk : clock)
    : option response * world :=
  let current_date := clk_date clk in
  let att := attendance w in
  match find_record att emp_id current_date with
  | Some (i, existing_record) =>
      match rec_out_time existing_record with
      | None =>
          if confirm_checkout then
            let closed := close_record existing_record clk in
            (Some (checkout_response employee closed (clk_hms clk)),
             set_attendance w (<[i := closed]> att))
          else
            (Some (pending_response employee existing_record (clk_hms clk)), w)
      | Some out_time =>
          (Some (already_out_response employee existing_record out_time), w)
      end
  | None =>
      let attendance_record := new_record emp_id employee clk qr_timestamp in
      (Some (checkin_response employee (rec_in_time attendance_record)),
       set_attendance w (att ++ [attendance_record]))
  end.

Definition missing_required_data (data : attendance_request) : bool :=
  py_not (strip (get_or (att_public_key data) ""))
  || py_not (get_or (att_employee_signature data) "")
  || bool_decide (att_server_qr data = None).

Definition api_attendance (w : world) (data : attendance_request) (clk : clock)
    : outcome * world :=
  let server_qr := att_server_qr data in
  let employee_public_key := strip (get_or (att_public_key data) "") in
  let employee_signature := get_or (att_employee_signature data) "" in
  if missing_required_data data then (Respond missing_response, w) else
  match find_employee (employees w) employee_public_key with
  | None => (Respond unknown_employee_response, w)
  | Some (emp_id, employee) =>
  let qr_message := get_or (server_qr ≫= sq_message) "" in
  let qr_signature := get_or (server_qr ≫= sq_signature) "" in
  let qr_timestamp := get_or (server_qr ≫= sq_timestamp) 0 in
  let qr_server_key := get_or (server_qr ≫= sq_server_public_key) "" in
  if negb (bool_decide (qr_server_key = server_public_key_b58)) then
    (Respond wrong_server_response, w) else
  match verify_signature server_public_key_b58 qr_message qr_signature with
  | inl e => (Raise e, w)
  | inr false => (Respond bad_qr_signature_response, w)
  | inr true =>
  let current_time := py_int (clk_time clk) in
  let time_diff := current_time - qr_timestamp in
  if qr_expired time_diff then (Respond (expired_response time_diff), w) else
  let time_slot := get_time_slot (clk_slot_time clk) in
  if qr_replayed (recent_qr_usage w) (att_confirm_checkout data)
       emp_id time_slot current_time
  then (Respond replay_response, w) else
  match verify_signature employee_public_key qr_message employee_signature with
  | inl e => (Raise e, w)
  | inr false => (Respond bad_employee_signature_response, w)
  | inr true =>
  match mark_attendance w (att_confirm_checkout data) emp_id employee qr_timestamp clk with
  | (Some r, w') => (Respond r, w')
  | (None, w') =>
      (NoResponse,
       set_recent_qr_usage w'
         (track_qr_usage (recent_qr_usage w') emp_id time_slot current_time))
  end
  end
  end
  end.

(** *** Runs of the server *)

Inductive request : Type :=
  | Register (data : register_request) (now_iso : string)
  | Attendance (data : attendance_request) (clk : clock).

Definition handle (w : world) (rq : request) : outcome * world :=
  match rq with
  | Register data now_iso => api_register w data now_iso
  | Attendance data clk => api_attendance w data clk
  end.

(** The world after serving a list of requests, oldest first. *)
Fixpoint serve (w : world) (rqs : list request) : world :=
  match rqs with
  | [] => w
  | rq :: rest => serve (handle w rq).2 rest
  end.

Definition reachable (w : world) : Prop :=
  ∃ rqs, w = serve initial_world rqs.
End Server.

(** ** A stand-in signature library

    A small instance of [Ed25519Lib] on which the handlers can be run.  It
    keeps the failure modes of the real packages (a character outside the
    base-58 alphabet, a public key that is not 32 bytes long, a signature
    that does not match) and nothing of their cryptography. *)

Module Demo.
Definition alphabet : string :=
  "123456789ABCDEFGHJKLMNPQRSTUVWXYZabcdefghijkmnopqrstuvwxyz".

Definition in_alphabet (c : ascii) : bool :=
  existsb (Ascii.eqb c) (list_ascii_of_string alphabet).

Definition letter (n : nat) : ascii :=
  nth (n mod 58)%nat (list_ascii_of_string alphabet) "1"%char.

Definition encode (b : list Byte.byte) : string := string_of_list_byte b.

Definition decode (s : string) : exc + list Byte.byte :=
  if forallb in_alphabet (list_ascii_of_string s)
  then inr (list_byte_of_string s)
  else inl ValueError.

Definition generate (n : nat) : list Byte.byte :=
  replicate 31 (byte_of_ascii (letter 0)) ++ [byte_of_ascii (letter n)].

Definition public_of (sk : list Byte.byte) : list Byte.byte := reverse sk.

Definition from_public_bytes (b : list Byte.byte) : exc + list Byte.byte :=
  if bool_decide (length b = 32%nat) then inr b else inl ValueError.

Definition digest (msg : list Byte.byte) : list Byte.byte :=
  map (λ b, byte_of_ascii (letter (N.to_nat (Byte.to_N b)))) msg.

Definition sign (sk msg : list Byte.byte) : list Byte.byte :=
  public_of sk ++ digest msg.

Definition verify (pk sig msg : list Byte.byte) : exc + unit :=
  if bool_decide (Byte.to_N <$> sig = Byte.to_N <$> (pk ++ digest msg))
  then inr tt else inl InvalidSignature.

Definition lib : Ed25519Lib :=
  {| privkey := list Byte.byte;
     pubkey := list Byte.byte;
     b58encode := encode;
     b58decode := decode;
     ed_generate := generate;
     ed_public_key := public_of;
     ed_private_bytes := λ sk, sk;
     ed_public_bytes := λ pk, pk;
     ed_from_public_bytes := from_public_bytes;
     ed_sign := sign;
     ed_verify := verify |}.

(** The server of the scenarios: its key pair is drawn apart from the
    employees' keys. *)
Definition server_sk : list Byte.byte := generate 57.
Definition server_pk_b58 : string := encode (public_of server_sk).

(** The key pair the first registration draws. *)
Definition emp_sk : list Byte.byte := generate 0.
Definition emp_pk_b58 : string := encode (public_of emp_sk).

Definition register_E1_data : register_request :=
  {| reg_emp_id := Some "E1"; reg_name := Some "Ada";
     reg_email := None; reg_department := None |}.

Definition register_E1 : request := Register register_E1_data "2024-01-01T09:00:00".

(** The registry entry that registration creates. *)
Definition ada : employee :=
  {| emp_name := "Ada"; emp_email := ""; emp_department := "";
     emp_public_key := emp_pk_b58; emp_registered_at := "2024-01-01T09:00:00" |}.

(** The challenge issued at [t = 1000] and the employee's signature on it. *)
Definition challenge : qr_data :=
  generate_qr_data (H := lib) server_sk server_pk_b58 (inject_Z 1000).

Definition submission (confirm : bool) : attendance_request :=
  {| att_server_qr :=
       Some {| sq_message := Some (qr_message challenge);
               sq_signature := Some (qr_signature challenge);
               sq_timestamp := Some (qr_timestamp challenge);
               sq_server_public_key := Some (qr_server_public_key challenge) |};
     att_public_key := Some emp_pk_b58;
     att_employee_signature :=
       Some (sign_message (H := lib) emp_sk (qr_message challenge));
     att_confirm_checkout := confirm |}.

Definition at_time (t : Z) (hms : string) : clock :=
  {| clk_time := inject_Z t; clk_slot_time := inject_Z t;
     clk_date := "2024-01-01"; clk_hms := hms;
     clk_iso := "2024-01-01T" +:+ hms |}.

Definition world_E1 : world :=
  serve (H := lib) server_pk_b58 initial_world [register_E1].

(** The four presentations of the challenge and the states between them. *)
Definition c1 : clock := at_time 1005 "09:00:05".
Definition c2 : clock := at_time 1008 "09:00:08".
Definition c3 : clock := at_time 1009 "09:00:09".
Definition c4 : clock := at_time 1010 "09:00:10".
Definition opened : attendance_record := new_record "E1" ada c1 1000.
Definition closed : attendance_record := close_record opened c3.
Definition checked_in : world := set_attendance world_E1 [opened].
Definition checked_out : world := set_attendance world_E1 [closed].

(** A registration without identity token. *)
Definition register_blank_data : register_request :=
  {| reg_emp_id := Some "   "; reg_name := Some "Ada";
     reg_email := None; reg_department := None |}.

(** The same submission with its holder signature left empty. *)
Definition unsigned_submission : attendance_request :=
  {| att_server_qr := att_server_qr (submission false);
     att_public_key := Some emp_pk_b58;
     att_employee_signature := Some "";
     att_confirm_checkout := false |}.
End Demo.

(** ** Notions used to state the properties *)

(** A string made of whitespace only (the empty string included). *)
Fixpoint all_space (s : string) : bool :=
  match s with
  | EmptyString => true
  | String c s' => py_isspace c && all_space s'
  end.

(** A request field that is absent or consists only of whitespace. *)
Definition blank_field (field : option string) : Prop :=
  match field with
  | None => True
  | Some s => all_space s = true
  end.

(** The key of the ledger: one record per employee and calendar day. *)
Definition record_key (r : attendance_record) : string * string :=
  (rec_emp_id r, rec_date r).

(** The registry entry of an identity token. *)
Fixpoint lookup_employee (emps : list (string * employee)) (emp_id : string)
    : option employee :=
  match emps with
  | [] => None
  | (eid, emp_data) :: rest =>
      if bool_decide (eid = emp_id) then Some emp_data
      else lookup_employee rest emp_id
  end.

(** The ways one request can change the ledger. *)
Inductive ledger_step (rq : request) (att att' : list attendance_record) : Prop :=
  | ledger_same :
      att' = att → ledger_step rq att att'
  | ledger_check_in r :
      att' = att ++ [r] →
      rec_out_time r = None →
      record_key r ∉ record_key <$> att →
      ledger_step rq att att'
  | ledger_check_out i r data clk :
      rq = Attendance data clk →
      att_confirm_checkout data = true →
      att !! i = Some r →
      rec_out_time r = None →
      att' = <[i := close_record r clk]> att →
      ledger_step rq att att'.

Section Verification.
Context `{Ed25519Lib}.
Variable server_public_key_b58 : string.

(** The challenge fields of a submission, with the handler's defaults. *)
Definition sub_public_key (data : attendance_request) : string :=
  strip (get_or (att_public_key data) "").
Definition sub_message (data : attendance_request) : string :=
  get_or (att_server_qr data ≫= sq_message) "".
Definition sub_signature (data : attendance_request) : string :=
  get_or (att_server_qr data ≫= sq_signature) "".
Definition sub_timestamp (data : attendance_request) : Z :=
  get_or (att_server_qr data ≫= sq_timestamp) 0.
Definition sub_server_key (data : attendance_request) : string :=
  get_or (att_server_qr data ≫= sq_server_public_key) "".

(** The submission carries its three parts, comes from the registered
    employee [emp_id], and its challenge is this server's, correctly
    signed: the guards of the handler before the freshness test. *)
Definition passes_origin (w : world) (data : attendance_request)
    (emp_id : string) (employee : employee) : Prop :=
  missing_required_data data = false
  ∧ find_employee (employees w) (sub_public_key data) = Some (emp_id, employee)
  ∧ sub_server_key data = server_public_key_b58
  ∧ verify_signature server_public_key_b58 (sub_message data) (sub_signature data)
    = inr true.

(** Every guard of the handler but the replay test lets the submission through. *)
Definition passes_all_but_replay (w : world) (data : attendance_request) (clk : clock)
    (emp_id : string) (employee : employee) : Prop :=
  passes_origin w data emp_id employee
  ∧ qr_expired (py_int (clk_time clk) - sub_timestamp data) = false
  ∧ verify_signature (sub_public_key data) (sub_message data)
      (get_or (att_employee_signature data) "") = inr true.

(** The submission passes every verification step. *)
Definition passes_verification (w : world) (data : attendance_request) (clk : clock)
    (emp_id : string) (employee : employee) : Prop :=
  passes_all_but_replay w data clk emp_id employee
  ∧ qr_replayed (recent_qr_usage w) (att_confirm_checkout data) emp_id
      (get_time_slot (clk_slot_time clk)) (py_int (clk_time clk)) = false.

(** *** The verification pipeline as the specification words it *)

Inductive reason : Type :=
  | UnknownIdentity
  | WrongServer
  | InvalidChallengeSignature
  | ChallengeExpired (age : Z)
  | AlreadyUsed
  | InvalidHolderSignature.

Definition reason_message (r : reason) : string :=
  match r with
  | UnknownIdentity => "Employee not registered or invalid key"
  | WrongServer => "Invalid QR code - wrong server"
  | InvalidChallengeSignature => "Invalid QR code signature"
  | ChallengeExpired age => "QR code expired (age: " +:+ pretty age +:+ "s)"
  | AlreadyUsed => "QR code already used recently"
  | InvalidHolderSignature => "Invalid employee signature"
  end.

(** [verify(publicKey, message, signature) -> bool] *)
Definition spec_verify (public_key message signature : string) : bool :=
  match verify_signature public_key message signature with
  | inr true => true
  | _ => false
  end.

(** The six steps in the stated order, stopping at the first that fails. *)
Definition spec_pipeline (w : world) (data : attendance_request) (clk : clock)
    : reason + (string * employee) :=
  match find_employee (employees w) (sub_public_key data) with
  | None => inl UnknownIdentity
  | Some (emp_id, employee) =>
      if negb (bool_decide (sub_server_key data = server_public_key_b58))
      then inl WrongServer
      else if negb (spec_verify server_public_key_b58 (sub_message data)
                      (sub_signature data))
      then inl InvalidChallengeSignature
      else if negb (bool_decide
                      (Z.abs (py_int (clk_time clk) - sub_timestamp data)
                       ≤ QR_GRACE_PERIOD))
      then inl (ChallengeExpired (py_int (clk_time clk) - sub_timestamp data))
      else if negb (att_confirm_checkout data)
              && qr_replayed (recent_qr_usage w) false emp_id
                   (get_time_slot (clk_slot_time clk)) (py_int (clk_time clk))
      then inl AlreadyUsed
      else if negb (spec_verify (sub_public_key data) (sub_message data)
                      (get_or (att_employee_signature data) ""))
      then inl InvalidHolderSignature
      else inr (emp_id, employee)
  end.

(** What the claim of the pipeline prescribes for a submission. *)
Definition spec_attendance (w : world) (data : attendance_request) (clk : clock)
    : outcome * world :=
  match spec_pipeline w data clk with
  | inl r => (Respond (failure (reason_message r)), w)
  | inr (emp_id, employee) =>
      match mark_attendance w (att_confirm_checkout data) emp_id employee
              (sub_timestamp data) clk with
      | (Some r, w') => (Respond r, w')
      | (None, w') => (NoResponse, w')
      end
  end.
End Verification.

(** ** Server start-up and the scanning client *)

Section Boot.
Context `{Ed25519Lib}.
(** [Ed25519PrivateKey.from_private_bytes(b)] *)
Variable ed_from_private_bytes : list Byte.byte → exc + privkey.

(** [load_or_create_server_keys()].  [server_keys_file] is the content of
    [keys/server_keys.json] (its "private_key" and "public_key" entries),
    [None] when the file does not exist.  The result carries the returned
    tuple, the file afterwards and the entropy state afterwards; an
    exception of the library is not caught here. *)
Definition load_or_create_server_keys
    (server_keys_file : option (string * string)) (entropy : nat)
    : exc + ((string * string * privkey * pubkey) * option (string * string) * nat) :=
  match server_keys_file with
  | Some (private_key_b58, public_key_b58) =>
      match b58decode private_key_b58 with
      | inl e => inl e
      | inr private_bytes =>
          let private_seed :=
            if bool_decide (length private_bytes = 64%nat)
            then take 32 private_bytes
            else private_bytes in
          match ed_from_private_bytes private_seed with
          | inl e => inl e
          | inr private_key =>
              let public_key := ed_public_key private_key in
              inr ((private_key_b58, public_key_b58, private_key, public_key),
                   server_keys_file, entropy)
          end
      end
  | None =>
      let '(private_key_b58, public_key_b58, private_key, public_key) :=
        generate_ed25519_keypair entropy in
      inr ((private_key_b58, public_key_b58, private_key, public_key),
           Some (private_key_b58, public_key_b58), S entropy)
  end.
End Boot.

Section Client.
Context `{Ed25519Lib}.

(** The body the scan page posts after reading a QR code: the scanned
    challenge, the holder's public key and the holder's signature of the
    challenge message; [confirm_checkout] is set by the confirmation dialog. *)
Definition honest_submission (challenge : qr_data) (private_key : privkey)
    (confirm : bool) : attendance_request :=
  {| att_server_qr :=
       Some {| sq_message := Some (qr_message challenge);
               sq_signature := Some (qr_signature challenge);
               sq_timestamp := Some (qr_timestamp challenge);
               sq_server_public_key := Some (qr_server_public_key challenge) |};
     att_public_key := Some (b58encode (ed_public_bytes (ed_public_key private_key)));
     att_employee_signature := Some (sign_message private_key (qr_message challenge));
     att_confirm_checkout := confirm |}.

(** The library treats the key pair of [private_key] and the message as
    Ed25519 and base-58 promise: the public key and the signature survive
    their base-58 encoding, the public bytes are accepted as a key, and the
    signature of the message verifies under the public key. *)
Definition signs_correctly (private_key : privkey) (message : string) : Prop :=
  let public_key := ed_public_key private_key in
  let signature := ed_sign private_key (encode_utf8 message) in
  b58decode (b58encode (ed_public_bytes public_key)) = inr (ed_public_bytes public_key)
  ∧ ed_from_public_bytes (ed_public_bytes public_key) = inr public_key
  ∧ b58decode (b58encode signature) = inr signature
  ∧ ed_verify public_key signature (encode_utf8 message) = inr ().
End Client.

(** A string without leading whitespace. *)
Definition no_leading_space (s : string) : Prop :=
  match s with
  | EmptyString => True
  | String c _ => py_isspace c = false
  end.

(** The stand-in library's [from_private_bytes]: a seed is 32 bytes long. *)
Definition demo_from_private_bytes (b : list Byte.byte) : exc + list Byte.byte :=
  if bool_decide (length b = 32%nat) then inr b else inl ValueError.

(** ** Well-formedness of the stored data *)

Section WellFormed.
Context `{Ed25519Lib}.

(** The registry as registrations build it: tokens are distinct, non-empty
    and stripped, names are non-empty, one key pair was drawn per entry and
    the entry at position [i] holds the public key of the [i]-th pair. *)
Definition registry_wf (w : world) : Prop :=
  NoDup (employees w).*1
  ∧ entropy w = length (employees w)
  ∧ ∀ i emp_id e, employees w !! i = Some (emp_id, e) →
      emp_id ≠ EmptyString
      ∧ strip emp_id = emp_id
      ∧ emp_name e ≠ EmptyString
      ∧ emp_public_key e = b58encode (ed_public_bytes (ed_public_key (ed_generate i))).

(** Every attendance record refers to a registered employee by token and
    name, is marked verified and present, and has its out-time and
    out-timestamp set together. *)
Definition ledger_refs (w : world) : Prop :=
  ∀ r, r ∈ attendance w →
    (∃ e, lookup_employee (employees w) (rec_emp_id r) = Some e
          ∧ rec_employee_name r = emp_name e)
    ∧ rec_verified r = true
    ∧ rec_status r = "Present"
    ∧ (rec_out_time r = None ↔ rec_out_timestamp r = None).
End WellFormed.

(** * Properties *)

(** ** Python built-ins *)

Lemma py_int_inject_Z (z : Z) : py_int (inject_Z z) = z.
Proof.
  unfold py_int. destruct (Qle_bool 0 (inject_Z z)).
  - apply Qfloor_Z.
  - apply Qceiling_Z.
Qed.

Lemma lstrip_all_space (s : string) : all_space s = true → lstrip s = EmptyString.
Proof.
  induction s as [|c s IH]; simpl; [done|].
  intros [Hc Hs]%andb_prop. rewrite Hc. auto.
Qed.

Lemma strip_all_space (s : string) : all_space s = true → strip s = EmptyString.
Proof. intros Hs. unfold strip. by rewrite lstrip_all_space. Qed.

Lemma lstrip_empty_inv (s : string) : lstrip s = EmptyString → all_space s = true.
Proof.
  induction s as [|c s IH]; simpl; [done|].
  destruct (py_isspace c); simpl; [auto | discriminate].
Qed.

Lemma rstrip_empty_inv (s : string) : rstrip s = EmptyString → all_space s = true.
Proof.
  induction s as [|c s IH]; simpl; [done|].
  destruct (rstrip s) eqn:Hr; [|discriminate].
  destruct (py_isspace c); simpl; [auto | discriminate].
Qed.

Lemma all_space_lstrip (s : string) :
  all_space (lstrip s) = true → all_space s = true.
Proof.
  induction s as [|c s IH]; simpl; [done|].
  destruct (py_isspace c) eqn:Hc; simpl; [auto|].
  rewrite Hc. done.
Qed.

(** [strip] returns the empty string exactly on whitespace-only strings. *)
Lemma strip_empty_iff (s : string) : strip s = EmptyString ↔ all_space s = true.
Proof.
  split; [|apply strip_all_space].
  unfold strip. intros Hs%rstrip_empty_inv. by apply all_space_lstrip.
Qed.

Lemma blank_field_strip (field : option string) :
  blank_field field → py_not (strip (get_or field "")) = true.
Proof.
  unfold py_not. destruct field as [s|]; simpl.
  - intros Hs. rewrite strip_all_space by done. done.
  - done.
Qed.

(** ** Exceptions *)

Lemma isinstance_Exception (e : exc) : isinstance e ClsException = true.
Proof. by destruct e. Qed.

Lemma except_matches_Exception (e : exc) (handled : list pyclass) :
  ClsException ∈ handled → except_matches handled e = true.
Proof.
  intros Hin. unfold except_matches. apply existsb_exists.
  exists ClsException. split; [by apply list_elem_of_In | apply isinstance_Exception].
Qed.

(** ** Time slots and the issued challenge *)

Lemma get_time_slot_floor (now : Q) :
  get_time_slot now = Qfloor (now / inject_Z INTERVAL)%Q * INTERVAL.
Proof. unfold get_time_slot, py_floordiv. by rewrite py_int_inject_Z. Qed.

(** A slot start is a multiple of [INTERVAL], and the clock reading lies in
    the slot: [slot <= now < slot + INTERVAL]. *)
Lemma get_time_slot_bounds (now : Q) :
  get_time_slot now mod INTERVAL = 0
  ∧ (inject_Z (get_time_slot now) <= now)%Q
  ∧ (now < inject_Z (get_time_slot now + INTERVAL))%Q.
Proof.
  rewrite get_time_slot_floor. unfold INTERVAL.
  set (k := Qfloor (now / inject_Z 10)%Q).
  assert (Hlo : (inject_Z k <= now / inject_Z 10)%Q) by apply Qfloor_le.
  assert (Hhi : (now / inject_Z 10 < inject_Z (k + 1))%Q) by apply Qlt_floor.
  assert (H10 : (0 < inject_Z 10)%Q) by done.
  assert (Hnow : (now / inject_Z 10 * inject_Z 10 == now)%Q).
  { rewrite Qmult_comm. by apply Qmult_div_r. }
  split; [by rewrite Z.mod_mul | split].
  - rewrite inject_Z_mult, <- Hnow at 1. by apply Qmult_le_r.
  - replace (k * 10 + 10) with ((k + 1) * 10) by lia.
    rewrite inject_Z_mult. rewrite <- Hnow at 1. by apply Qmult_lt_r.
Qed.

Example get_time_slot_1005_7 : get_time_slot (10057 # 10) = 1000.
Proof. reflexivity. Qed.

Example challenge_message_1000 :
  qr_message Demo.challenge = "attendance:1000:z1111111111111111111111111111111".
Proof. vm_compute. reflexivity. Qed.

Section ChallengeIssuer.
Context `{Ed25519Lib}.
Variable server_private_key : privkey.
Variable server_public_key_b58 : string.

(** C6. For every issuance time [now], the slot start of the issued
    challenge is [floor(now / INTERVAL) * INTERVAL] with [INTERVAL = 10],
    and the signed message is exactly the string ["attendance:"] followed
    by the decimal slot start, a colon and the server's base-58 public
    key; the signature is the server's signature of that message. *)
Theorem generate_qr_data_slot_message (now : Q) :
  let qr := generate_qr_data server_private_key server_public_key_b58 now in
  let slotStart := Qfloor (now / inject_Z 10)%Q * 10 in
  INTERVAL = 10
  ∧ qr_timestamp qr = slotStart
  ∧ qr_message qr = "attendance:" +:+ pretty slotStart +:+ ":" +:+ server_public_key_b58
  ∧ qr_signature qr = sign_message server_private_key (qr_message qr)
  ∧ qr_server_public_key qr = server_public_key_b58.
Proof.
  simpl. rewrite get_time_slot_floor. unfold INTERVAL. done.
Qed.
End ChallengeIssuer.

(** ** Signature verification *)

Section SignatureScheme.
Context `{Ed25519Lib}.

Lemma verify_signature_try_true (pk m s : string) :
  verify_signature_try pk m s = inr true ↔
  ∃ public_bytes public_key signature_bytes,
    b58decode pk = inr public_bytes
    ∧ ed_from_public_bytes public_bytes = inr public_key
    ∧ b58decode s = inr signature_bytes
    ∧ ed_verify public_key signature_bytes (encode_utf8 m) = inr ().
Proof.
  unfold verify_signature_try. split.
  - destruct (b58decode pk) as [e|pb] eqn:Hpk; [done|].
    destruct (ed_from_public_bytes pb) as [e|key] eqn:Hkey; [done|].
    destruct (b58decode s) as [e|sb] eqn:Hs; [done|].
    destruct (ed_verify key sb (encode_utf8 m)) as [e|[]] eqn:Hv; [done|].
    intros _. by exists pb, key, sb.
  - intros (pb & key & sb & -> & -> & -> & ->). done.
Qed.

Lemma verify_signature_try_not_false (pk m s : string) :
  verify_signature_try pk m s ≠ inr false.
Proof.
  unfold verify_signature_try. by repeat case_match.
Qed.

(** The [except] clause catches whatever the [try] block raises. *)
Lemma verify_signature_returns (pk m s : string) :
  verify_signature pk m s
  = inr (match verify_signature_try pk m s with inr b => b | inl _ => false end).
Proof.
  unfold verify_signature.
  destruct (verify_signature_try pk m s) as [e|b]; [|done].
  by rewrite except_matches_Exception by set_solver.
Qed.

Lemma verify_signature_no_raise (pk m s : string) (e : exc) :
  verify_signature pk m s ≠ inl e.
Proof. by rewrite verify_signature_returns. Qed.

(** C5. For every triple (public key, message, signature), signature
    verification returns a boolean and lets no exception reach its caller;
    the boolean is [true] exactly when both base-58 strings decode, the
    key bytes form a public key and the signature matches, so a
    malformed encoding, a wrong length and a mismatch all give [false]. *)
Theorem verify_signature_total (pk m s : string) :
  ∃ b : bool,
    verify_signature pk m s = inr b
    ∧ (b = true ↔
       ∃ public_bytes public_key signature_bytes,
         b58decode pk = inr public_bytes
         ∧ ed_from_public_bytes public_bytes = inr public_key
         ∧ b58decode s = inr signature_bytes
         ∧ ed_verify public_key signature_bytes (encode_utf8 m) = inr ())
    ∧ (∀ e, verify_signature_try pk m s = inl e → b = false).
Proof.
  eexists. split; [apply verify_signature_returns|].
  rewrite <- verify_signature_try_true.
  destruct (verify_signature_try pk m s) as [e|b] eqn:Htry.
  - split; [|done]. split; [done|]. intros [=].
  - destruct b; [|by destruct (verify_signature_try_not_false pk m s)].
    split; [done|]. intros e [=].
Qed.

Lemma spec_verify_true (pk m s : string) :
  spec_verify pk m s = true ↔ verify_signature pk m s = inr true.
Proof.
  unfold spec_verify. destruct (verify_signature pk m s) as [e|[]]; naive_solver.
Qed.

Lemma spec_verify_false (pk m s : string) :
  spec_verify pk m s = false ↔ verify_signature pk m s = inr false.
Proof.
  unfold spec_verify.
  destruct (verify_signature pk m s) as [e|[]] eqn:Hv; try naive_solver.
  by destruct (verify_signature_no_raise pk m s e).
Qed.
End SignatureScheme.

(** The three kinds of malformed input, on the stand-in library. *)
Example verify_bad_encoding :
  verify_signature (H := Demo.lib) "0OIl" "m" "abc" = inr false.
Proof. reflexivity. Qed.

Example verify_wrong_length :
  verify_signature (H := Demo.lib) "abc" "m" "abc" = inr false.
Proof. reflexivity. Qed.

Example verify_mismatch :
  verify_signature (H := Demo.lib) Demo.server_pk_b58 "other message"
    (qr_signature Demo.challenge) = inr false.
Proof. vm_compute. reflexivity. Qed.

Example verify_genuine :
  verify_signature (H := Demo.lib) Demo.server_pk_b58 (qr_message Demo.challenge)
    (qr_signature Demo.challenge) = inr true.
Proof. vm_compute. reflexivity. Qed.

(** ** The attendance handler, guard by guard *)

Lemma qr_expired_false_iff (now S : Z) :
  qr_expired (now - S) = false ↔ Z.abs (now - S) ≤ QR_GRACE_PERIOD.
Proof.
  unfold qr_expired, QR_GRACE_PERIOD.
  rewrite orb_false_iff, !Z.ltb_ge. lia.
Qed.

Lemma qr_expired_true_iff (now S : Z) :
  qr_expired (now - S) = true ↔ ¬ Z.abs (now - S) ≤ QR_GRACE_PERIOD.
Proof.
  rewrite <- qr_expired_false_iff. destruct (qr_expired (now - S)); naive_solver.
Qed.

Lemma failure_inj (m1 m2 : string) : failure m1 = failure m2 → m1 = m2.
Proof. unfold failure. congruence. Qed.

Section Handler.
Context `{Ed25519Lib}.
Variable server_public_key_b58 : string.

Abbreviation api_attendance := (api_attendance server_public_key_b58).
Abbreviation passes_origin := (passes_origin server_public_key_b58).
Abbreviation passes_all_but_replay := (passes_all_but_replay server_public_key_b58).
Abbreviation passes_verification := (passes_verification server_public_key_b58).

(** The handler once the guards before the freshness test are passed. *)
Lemma api_attendance_from_origin w data clk emp_id employee :
  passes_origin w data emp_id employee →
  api_attendance w data clk =
    let current_time := py_int (clk_time clk) in
    let time_diff := current_time - sub_timestamp data in
    let time_slot := get_time_slot (clk_slot_time clk) in
    if qr_expired time_diff then (Respond (expired_response time_diff), w) else
    if qr_replayed (recent_qr_usage w) (att_confirm_checkout data)
         emp_id time_slot current_time
    then (Respond replay_response, w) else
    match verify_signature (sub_public_key data) (sub_message data)
            (get_or (att_employee_signature data) "") with
    | inl e => (Raise e, w)
    | inr false => (Respond bad_employee_signature_response, w)
    | inr true =>
        match mark_attendance w (att_confirm_checkout data) emp_id employee
                (sub_timestamp data) clk with
        | (Some r, w') => (Respond r, w')
        | (None, w') =>
            (NoResponse,
             set_recent_qr_usage w'
               (track_qr_usage (recent_qr_usage w') emp_id time_slot current_time))
        end
    end.
Proof.
  unfold passes_origin, sub_public_key, sub_message, sub_signature,
    sub_timestamp, sub_server_key.
  intros (Hmiss & Hfind & Hkey & Hsig).
  unfold api_attendance. cbv zeta.
  rewrite Hmiss, Hfind, Hsig.
  rewrite (bool_decide_eq_true_2 _ Hkey). done.
Qed.

(** The attendance branches always return: control never reaches the
    statements after them. *)
Lemma mark_attendance_returns w confirm emp_id employee qr_timestamp clk :
  ∃ r, (mark_attendance w confirm emp_id employee qr_timestamp clk).1 = Some r.
Proof.
  unfold mark_attendance.
  destruct (find_record _ _ _) as [[i r]|]; [|by eexists].
  destruct (rec_out_time r); [by eexists|].
  destruct confirm; by eexists.
Qed.

(** The handler once every guard is passed. *)
Lemma api_attendance_verified w data clk emp_id employee :
  passes_verification w data clk emp_id employee →
  ∃ r,
    (mark_attendance w (att_confirm_checkout data) emp_id employee
       (sub_timestamp data) clk).1 = Some r
    ∧ api_attendance w data clk =
        (Respond r,
         (mark_attendance w (att_confirm_checkout data) emp_id employee
            (sub_timestamp data) clk).2).
Proof.
  intros ((Horigin & Hfresh & Hholder) & Hreplay).
  rewrite (api_attendance_from_origin _ _ _ _ _ Horigin). cbv zeta.
  rewrite Hfresh, Hreplay, Hholder.
  destruct (mark_attendance_returns w (att_confirm_checkout data) emp_id employee
              (sub_timestamp data) clk) as [r Hr].
  exists r. split; [done|].
  destruct (mark_attendance _ _ _ _ _ _) as [[r'|] w']; simpl in *; congruence.
Qed.

(** C3. For a submission that reaches the freshness test, at time [now]
    with a challenge of slot start [S]: the test lets it through if and
    only if [|now - S| <= GRACE] with [GRACE = 30]; otherwise the handler
    answers "QR code expired" with the observed age [now - S] and changes
    nothing, in particular at [now = S + GRACE + 1], where the reported
    age is 31 seconds. *)
Theorem challenge_freshness w data clk emp_id employee :
  passes_origin w data emp_id employee →
  let now := py_int (clk_time clk) in
  let S := sub_timestamp data in
  QR_GRACE_PERIOD = 30
  ∧ (qr_expired (now - S) = false ↔ Z.abs (now - S) ≤ QR_GRACE_PERIOD)
  ∧ (¬ Z.abs (now - S) ≤ QR_GRACE_PERIOD →
     api_attendance w data clk = (Respond (expired_response (now - S)), w))
  ∧ (Z.abs (now - S) ≤ QR_GRACE_PERIOD →
     ∀ age, (api_attendance w data clk).1 ≠ Respond (expired_response age))
  ∧ (now = S + QR_GRACE_PERIOD + 1 →
     api_attendance w data clk
     = (Respond (failure "QR code expired (age: 31s)"), w)).
Proof.
  intros Horigin now S.
  assert (Hexp : ¬ Z.abs (now - S) ≤ QR_GRACE_PERIOD →
    api_attendance w data clk = (Respond (expired_response (now - S)), w)).
  { intros Hold%qr_expired_true_iff.
    rewrite (api_attendance_from_origin _ _ _ _ _ Horigin). cbv zeta.
    fold now S. by rewrite Hold. }
  split; [done|]. split; [apply qr_expired_false_iff|].
  split; [done|]. split.
  - intros Hfresh%qr_expired_false_iff age.
    rewrite (api_attendance_from_origin _ _ _ _ _ Horigin). cbv zeta.
    fold now S. rewrite Hfresh.
    destruct (qr_replayed _ _ _ _ _); [simpl; by intros [=]|].
    destruct (verify_signature _ _ _) as [e|[]]; [| |simpl; by intros [=]];
      [done|].
    unfold mark_attendance.
    destruct (find_record _ _ _) as [[i r]|]; [|simpl; by intros [=]].
    destruct (rec_out_time r); [simpl; by intros [=]|].
    destruct (att_confirm_checkout data); simpl; by intros [=].
  - intros Hnow. rewrite Hexp by (unfold QR_GRACE_PERIOD in *; lia).
    replace (now - S) with 31 by (unfold QR_GRACE_PERIOD in *; lia). done.
Qed.
End Handler.

(** ** The verification pipeline *)

Lemma string_length_app (a b : string) :
  String.length (a +:+ b) = (String.length a + String.length b)%nat.
Proof. induction a as [|c a IH]; simpl; [done|]. by rewrite IH. Qed.

Lemma string_app_inj_r (a b t : string) : a +:+ t = b +:+ t → a = b.
Proof.
  revert b. induction a as [|c a IH]; intros [|d b] Heq; simpl in *.
  - done.
  - apply (f_equal String.length) in Heq.
    rewrite !string_length_app in Heq. simpl in Heq. lia.
  - apply (f_equal String.length) in Heq.
    rewrite !string_length_app in Heq. simpl in Heq. lia.
  - injection Heq as -> Heq. f_equal. by apply IH.
Qed.

(** Distinct failures are reported with distinct messages. *)
Lemma reason_message_inj (r1 r2 : reason) :
  reason_message r1 = reason_message r2 → r1 = r2.
Proof.
  destruct r1, r2; simpl; intros Heq; try done; try discriminate Heq.
  injection Heq as Heq.
  change (pretty age +:+ "s)" = pretty age0 +:+ "s)") in Heq.
  apply string_app_inj_r in Heq.
  f_equal. by apply (inj pretty).
Qed.

Lemma reason_message_not_missing (r : reason) :
  reason_message r ≠ "Missing required data".
Proof. destruct r; simpl; discriminate. Qed.

Lemma qr_expired_abs (d : Z) :
  qr_expired d = negb (bool_decide (Z.abs d ≤ QR_GRACE_PERIOD)).
Proof.
  unfold qr_expired, QR_GRACE_PERIOD.
  case_bool_decide; simpl.
  - apply orb_false_iff. rewrite !Z.ltb_ge. lia.
  - apply orb_true_iff. rewrite !Z.ltb_lt. lia.
Qed.

Lemma qr_replayed_confirm usage confirm emp_id time_slot current_time :
  qr_replayed usage confirm emp_id time_slot current_time
  = negb confirm && qr_replayed usage false emp_id time_slot current_time.
Proof. unfold qr_replayed. by destruct confirm. Qed.

Section Pipeline.
Context `{Ed25519Lib}.
Variable server_public_key_b58 : string.

Abbreviation api_attendance := (api_attendance server_public_key_b58).
Abbreviation spec_attendance := (spec_attendance server_public_key_b58).
Abbreviation passes_verification := (passes_verification server_public_key_b58).

(** The handler is the required-data guard followed by the six steps. *)
Lemma api_attendance_refines w data clk :
  api_attendance w data clk =
    if missing_required_data data then (Respond missing_response, w)
    else spec_attendance w data clk.
Proof.
  unfold api_attendance, spec_attendance, spec_pipeline,
    sub_public_key, sub_message, sub_signature, sub_timestamp, sub_server_key.
  cbv zeta.
  destruct (missing_required_data data); [done|].
  destruct (find_employee _ _) as [[emp_id employee]|]; [|done].
  case_bool_decide; simpl; [|done].
  destruct (verify_signature server_public_key_b58 _ _) as [e|[]] eqn:Hserver.
  { by destruct (verify_signature_no_raise _ _ _ _ Hserver). }
  2:{ apply spec_verify_false in Hserver. by rewrite Hserver. }
  apply spec_verify_true in Hserver. rewrite Hserver. simpl.
  rewrite qr_expired_abs.
  case_bool_decide; simpl; [|done].
  rewrite qr_replayed_confirm.
  destruct (negb (att_confirm_checkout data) && qr_replayed _ _ _ _ _); [done|].
  destruct (verify_signature (strip _) _ _) as [e|[]] eqn:Hholder.
  { by destruct (verify_signature_no_raise _ _ _ _ Hholder). }
  2:{ apply spec_verify_false in Hholder. by rewrite Hholder. }
  apply spec_verify_true in Hholder. rewrite Hholder. simpl.
  destruct (mark_attendance_returns w (att_confirm_checkout data) emp_id employee
              (get_or (att_server_qr data ≫= sq_timestamp) 0) clk) as [r Hr].
  destruct (mark_attendance _ _ _ _ _ _) as [[r'|] w']; simpl in *; congruence.
Qed.

(** A world the handler changed was changed by a submission that passed
    every verification step. *)
Lemma api_attendance_changes_only_verified w data clk :
  (∃ emp_id employee, passes_verification w data clk emp_id employee)
  ∨ (api_attendance w data clk).2 = w.
Proof.
  unfold api_attendance.
  destruct (missing_required_data data) eqn:Hmiss; [by right|].
  destruct (find_employee _ _) as [[emp_id employee]|] eqn:Hfind; [|by right].
  cbv zeta. case_bool_decide as Hkey; simpl; [|by right].
  destruct (verify_signature server_public_key_b58 _ _) as [e|[]] eqn:Hserver;
    [by right| |by right].
  destruct (qr_expired _) eqn:Hfresh; [by right|].
  destruct (qr_replayed _ _ _ _ _) eqn:Hreplay; [by right|].
  destruct (verify_signature (strip _) _ _) as [e|[]] eqn:Hholder;
    [by right| |by right].
  left. exists emp_id, employee.
  unfold passes_verification, passes_all_but_replay, passes_origin,
    sub_public_key, sub_message, sub_signature, sub_timestamp, sub_server_key.
  done.
Qed.

End Pipeline.

(** ** The attendance ledger *)

Lemma find_record_new att emp_id employee clk qr_timestamp :
  find_record att emp_id (clk_date clk) = None →
  find_record (att ++ [new_record emp_id employee clk qr_timestamp]) emp_id (clk_date clk)
  = Some (length att, new_record emp_id employee clk qr_timestamp).
Proof.
  unfold find_record. intros Hnone.
  rewrite list_find_app_r by done. simpl.
  rewrite decide_True by done. done.
Qed.

Lemma find_record_close att emp_id day i r clk :
  find_record att emp_id day = Some (i, r) →
  find_record (<[i := close_record r clk]> att) emp_id day
  = Some (i, close_record r clk).
Proof.
  unfold find_record. intros (Hi & Hr & Hleast)%list_find_Some.
  apply list_find_insert_Some. right; left.
  split_and!; [done..|by eapply lookup_lt_Some|done|done].
Qed.

Section Ledger.
Context `{Ed25519Lib}.
Variable server_public_key_b58 : string.

Abbreviation api_attendance := (api_attendance server_public_key_b58).
Abbreviation passes_all_but_replay := (passes_all_but_replay server_public_key_b58).
Abbreviation passes_verification := (passes_verification server_public_key_b58).

(** The four branches of the attendance statement. *)
Lemma api_attendance_check_in w data clk emp_id employee :
  passes_verification w data clk emp_id employee →
  find_record (attendance w) emp_id (clk_date clk) = None →
  api_attendance w data clk =
    (Respond (checkin_response employee (clk_hms clk)),
     set_attendance w
       (attendance w ++ [new_record emp_id employee clk (sub_timestamp data)])).
Proof.
  intros (r & Hr & ->)%api_attendance_verified Hnone.
  revert Hr. unfold mark_attendance. rewrite Hnone. simpl. by intros [= <-].
Qed.

Lemma api_attendance_pending w data clk emp_id employee i r :
  passes_verification w data clk emp_id employee →
  find_record (attendance w) emp_id (clk_date clk) = Some (i, r) →
  rec_out_time r = None →
  att_confirm_checkout data = false →
  api_attendance w data clk = (Respond (pending_response employee r (clk_hms clk)), w).
Proof.
  intros (r' & Hr & ->)%api_attendance_verified Hfind Hout Hconfirm.
  revert Hr. unfold mark_attendance. rewrite Hfind, Hout, Hconfirm. simpl.
  by intros [= <-].
Qed.

Lemma api_attendance_check_out w data clk emp_id employee i r :
  passes_verification w data clk emp_id employee →
  find_record (attendance w) emp_id (clk_date clk) = Some (i, r) →
  rec_out_time r = None →
  att_confirm_checkout data = true →
  api_attendance w data clk =
    (Respond (checkout_response employee (close_record r clk) (clk_hms clk)),
     set_attendance w (<[i := close_record r clk]> (attendance w))).
Proof.
  intros (r' & Hr & ->)%api_attendance_verified Hfind Hout Hconfirm.
  revert Hr. unfold mark_attendance. rewrite Hfind, Hout, Hconfirm. simpl.
  by intros [= <-].
Qed.

Lemma api_attendance_already_out w data clk emp_id employee i r out_time :
  passes_verification w data clk emp_id employee →
  find_record (attendance w) emp_id (clk_date clk) = Some (i, r) →
  rec_out_time r = Some out_time →
  api_attendance w data clk = (Respond (already_out_response employee r out_time), w).
Proof.
  intros (r' & Hr & ->)%api_attendance_verified Hfind Hout.
  revert Hr. unfold mark_attendance. rewrite Hfind, Hout. simpl.
  by intros [= <-].
Qed.

(** The handler writes the attendance file and nothing else: the registry,
    the usage table and the entropy state are as before. *)
Lemma api_attendance_frame w data clk :
  let w' := (api_attendance w data clk).2 in
  employees w' = employees w
  ∧ recent_qr_usage w' = recent_qr_usage w
  ∧ entropy w' = entropy w.
Proof.
  destruct (api_attendance_changes_only_verified server_public_key_b58 w data clk)
    as [(emp_id & employee & Hpass)| ->]; [|done].
  apply api_attendance_verified in Hpass as (r & _ & ->). simpl.
  unfold mark_attendance.
  destruct (find_record _ _ _) as [[i r']|]; [|done].
  destruct (rec_out_time r'); [done|].
  by destruct (att_confirm_checkout data).
Qed.


(** C2. For an employee without a record on a given day, four verified
    submissions on that day, the second without [confirm_checkout] and the
    third with it, drive the per-day automaton: the first answers with the
    action "check-in" and appends a record without out-time; the second
    answers "Confirm check-out" and leaves the stored state as it is; the
    third answers with the action "check-out" and sets the out-time of the
    record; the fourth, whatever its flag, answers "Already checked out
    today" and leaves the stored state as it is. *)
Theorem attendance_state_machine w d1 d2 d3 d4 c1 c2 c3 c4 emp_id employee day :
  let w1 := (api_attendance w d1 c1).2 in
  let w2 := (api_attendance w1 d2 c2).2 in
  let w3 := (api_attendance w2 d3 c3).2 in
  let opened := new_record emp_id employee c1 (sub_timestamp d1) in
  let closed := close_record opened c3 in
  find_record (attendance w) emp_id day = None →
  clk_date c1 = day → clk_date c2 = day → clk_date c3 = day → clk_date c4 = day →
  passes_verification w d1 c1 emp_id employee →
  passes_verification w1 d2 c2 emp_id employee →
  passes_verification w2 d3 c3 emp_id employee →
  passes_verification w3 d4 c4 emp_id employee →
  att_confirm_checkout d2 = false →
  att_confirm_checkout d3 = true →
  (api_attendance w d1 c1).1 = Respond (checkin_response employee (clk_hms c1))
  ∧ jget "action" (checkin_response employee (clk_hms c1)) = Some (JStr "check-in")
  ∧ attendance w1 = attendance w ++ [opened]
  ∧ rec_out_time opened = None
  ∧ api_attendance w1 d2 c2 = (Respond (pending_response employee opened (clk_hms c2)), w1)
  ∧ jget "message" (pending_response employee opened (clk_hms c2))
    = Some (JStr "Confirm check-out")
  ∧ (api_attendance w2 d3 c3).1 = Respond (checkout_response employee closed (clk_hms c3))
  ∧ jget "action" (checkout_response employee closed (clk_hms c3))
    = Some (JStr "check-out")
  ∧ attendance w3 = attendance w ++ [closed]
  ∧ rec_out_time closed = Some (clk_hms c3)
  ∧ api_attendance w3 d4 c4
    = (Respond (already_out_response employee closed (clk_hms c3)), w3)
  ∧ jget "message" (already_out_response employee closed (clk_hms c3))
    = Some (JStr "Already checked out today").
Proof.
  intros w1 w2 w3 opened closed Hnone <- Hc2 Hc3 Hc4 Hp1 Hp2 Hp3 Hp4 Hno Hyes.
  assert (H1 := api_attendance_check_in _ _ _ _ _ Hp1 Hnone).
  assert (Hw1 : w1 = set_attendance w (attendance w ++ [opened])).
  { unfold w1. by rewrite H1. }
  assert (Hfind1 : find_record (attendance w1) emp_id (clk_date c2) = Some (length (attendance w), opened)).
  { rewrite Hw1, Hc2. apply find_record_new, Hnone. }
  assert (H2 := api_attendance_pending _ _ _ _ _ _ _ Hp2 Hfind1 eq_refl Hno).
  assert (Hw2 : w2 = w1) by (unfold w2; by rewrite H2).
  rewrite Hw2 in Hp3.
  assert (Hfind2 : find_record (attendance w1) emp_id (clk_date c3) = Some (length (attendance w), opened)).
  { by rewrite Hc3, <- Hc2. }
  assert (H3 := api_attendance_check_out _ _ _ _ _ _ _ Hp3 Hfind2 eq_refl Hyes).
  assert (Hw3 : w3 = set_attendance w1 (<[length (attendance w) := closed]> (attendance w1))).
  { unfold w3. by rewrite Hw2, H3. }
  assert (Hatt3 : attendance w3 = attendance w ++ [closed]).
  { rewrite Hw3, Hw1. simpl.
    rewrite insert_app_r_alt by done. by rewrite Nat.sub_diag. }
  assert (Hfind3 : find_record (attendance w3) emp_id (clk_date c4) = Some (length (attendance w), closed)).
  { rewrite Hw3, Hc4, <- Hc2. simpl. by apply find_record_close. }
  assert (H4 := api_attendance_already_out _ _ _ _ _ _ _ (clk_hms c3) Hp4 Hfind3 eq_refl).
  split_and!; try done.
  - by rewrite H1.
  - by rewrite Hw1.
  - by rewrite Hw2, H3.
Qed.

(** The usage table of a running server is the one it started with. *)
Lemma serve_recent_qr_usage w rqs :
  recent_qr_usage (serve server_public_key_b58 w rqs) = recent_qr_usage w.
Proof.
  revert w. induction rqs as [|rq rqs IH]; intros w; simpl; [done|].
  rewrite IH. destruct rq as [data now_iso|data clk]; simpl.
  - unfold api_register. repeat case_match; done.
  - apply api_attendance_frame.
Qed.

Lemma reachable_recent_qr_usage w :
  reachable server_public_key_b58 w → recent_qr_usage w = ∅.
Proof. intros [rqs ->]. by rewrite serve_recent_qr_usage. Qed.

Lemma reachable_never_replayed w confirm emp_id time_slot current_time :
  reachable server_public_key_b58 w →
  qr_replayed (recent_qr_usage w) confirm emp_id time_slot current_time = false.
Proof.
  intros ->%reachable_recent_qr_usage. unfold qr_replayed.
  rewrite lookup_empty. by destruct confirm.
Qed.

(** C1, on the code.  On a running server the same challenge, submitted
    twice for the same slot within the reuse window and without
    [confirm_checkout], is accepted as a check-in the first time; the usage
    table is still empty afterwards, and the second submission is answered
    with "Confirm check-out", not with "QR code already used recently". *)
Theorem second_presentation_not_rejected w data clk1 clk2 emp_id employee :
  let w1 := (api_attendance w data clk1).2 in
  let opened := new_record emp_id employee clk1 (sub_timestamp data) in
  reachable server_public_key_b58 w →
  att_confirm_checkout data = false →
  passes_verification w data clk1 emp_id employee →
  find_record (attendance w) emp_id (clk_date clk1) = None →
  passes_all_but_replay w data clk2 emp_id employee →
  get_time_slot (clk_slot_time clk2) = get_time_slot (clk_slot_time clk1) →
  0 ≤ py_int (clk_time clk2) - py_int (clk_time clk1) < QR_REUSE_WINDOW →
  clk_date clk2 = clk_date clk1 →
  (api_attendance w data clk1).1 = Respond (checkin_response employee (clk_hms clk1))
  ∧ recent_qr_usage w1 = ∅
  ∧ api_attendance w1 data clk2
    = (Respond (pending_response employee opened (clk_hms clk2)), w1)
  ∧ pending_response employee opened (clk_hms clk2) ≠ replay_response.
Proof.
  intros w1 opened Hreach Hno Hp1 Hnone Hp2 _ _ Hdate.
  assert (H1 := api_attendance_check_in _ _ _ _ _ Hp1 Hnone).
  assert (Hw1 : w1 = set_attendance w (attendance w ++ [opened])).
  { unfold w1. by rewrite H1. }
  assert (Husage : recent_qr_usage w1 = ∅).
  { rewrite Hw1. simpl. by apply reachable_recent_qr_usage. }
  split_and!; [by rewrite H1|done| |done].
  eapply api_attendance_pending; [| |done|done].
  - split; [rewrite Hw1; exact Hp2|].
    rewrite Husage. unfold qr_replayed. rewrite lookup_empty. by rewrite Hno.
  - rewrite Hw1, Hdate. simpl. apply find_record_new, Hnone.
Qed.
End Ledger.

(** ** Invariants of the ledger *)

Lemma record_key_close r clk : record_key (close_record r clk) = record_key r.
Proof. done. Qed.

Lemma find_record_None_key att emp_id day :
  find_record att emp_id day = None → (emp_id, day) ∉ record_key <$> att.
Proof.
  unfold find_record. intros Hnone%list_find_None.
  intros (r & Hkey & Hin)%list_elem_of_fmap.
  rewrite Forall_forall in Hnone. apply (Hnone r Hin).
  unfold record_key in Hkey. injection Hkey as -> ->. done.
Qed.

Lemma find_record_Some_lookup att emp_id day i r :
  find_record att emp_id day = Some (i, r) →
  att !! i = Some r ∧ record_key r = (emp_id, day).
Proof.
  unfold find_record. intros (Hi & [Hid Hday] & _)%list_find_Some.
  split; [done|]. unfold record_key. by rewrite Hid, Hday.
Qed.

Section Invariant.
Context `{Ed25519Lib}.
Variable server_public_key_b58 : string.

Abbreviation handle := (handle server_public_key_b58).
Abbreviation reachable := (reachable server_public_key_b58).

Lemma api_register_attendance w data now_iso :
  attendance (api_register w data now_iso).2 = attendance w.
Proof. unfold api_register. by repeat case_match. Qed.

Lemma handle_ledger_step w rq :
  ledger_step rq (attendance w) (attendance (handle w rq).2).
Proof.
  destruct rq as [data now_iso|data clk]; simpl.
  { apply ledger_same, api_register_attendance. }
  destruct (api_attendance_changes_only_verified server_public_key_b58 w data clk)
    as [(emp_id & employee & Hpass)|Hsame]; [|by apply ledger_same; rewrite Hsame].
  apply api_attendance_verified in Hpass as (resp & _ & ->). simpl.
  unfold mark_attendance.
  destruct (find_record _ _ _) as [[i r]|] eqn:Hfind.
  - apply find_record_Some_lookup in Hfind as [Hi _].
    destruct (rec_out_time r) eqn:Hout; [by apply ledger_same|].
    destruct (att_confirm_checkout data) eqn:Hconfirm; [|by apply ledger_same].
    by eapply ledger_check_out.
  - eapply ledger_check_in; [done..|].
    by apply find_record_None_key.
Qed.

Lemma ledger_step_NoDup rq att att' :
  ledger_step rq att att' →
  NoDup (record_key <$> att) → NoDup (record_key <$> att').
Proof.
  intros [->| r -> _ Hfresh | i r data clk _ _ Hi _ ->] Hnodup.
  - done.
  - rewrite fmap_app. simpl. apply NoDup_app. split_and!; [done| |].
    + intros k Hk ->%list_elem_of_singleton. done.
    + apply NoDup_singleton.
  - rewrite list_fmap_insert, record_key_close.
    rewrite list_insert_id; [done|]. by rewrite list_lookup_fmap, Hi.
Qed.

Lemma serve_NoDup w rqs :
  NoDup (record_key <$> attendance w) →
  NoDup (record_key <$> attendance (serve server_public_key_b58 w rqs)).
Proof.
  revert w. induction rqs as [|rq rqs IH]; intros w Hnodup; simpl; [done|].
  apply IH. eapply ledger_step_NoDup; [apply handle_ledger_step|done].
Qed.

Lemma ledger_step_keeps rq att att' i r :
  ledger_step rq att att' →
  att !! i = Some r →
  ∃ r', att' !! i = Some r'
        ∧ record_key r' = record_key r
        ∧ rec_in_time r' = rec_in_time r
        ∧ (is_Some (rec_out_time r) → r' = r).
Proof.
  intros [->| r0 -> _ _ | j r0 data clk _ _ Hj Hopen ->] Hi.
  - by exists r.
  - exists r. split_and!; [by apply lookup_app_l_Some|done..].
  - destruct (decide (j = i)) as [->|Hne].
    + rewrite Hi in Hj. injection Hj as <-.
      exists (close_record r clk). split_and!; [|done|done|].
      * apply list_lookup_insert_eq. by eapply lookup_lt_Some.
      * rewrite Hopen. by intros [? [=]].
    + exists r. by rewrite list_lookup_insert_ne.
Qed.

(** C7. In every state the server can reach there is at most one
    attendance record per employee and day.  A request changes the ledger
    in one of two ways only: it appends a record without out-time whose
    (employee, day) has no record yet, or, on a submission with
    [confirm_checkout], it sets the out-time of a record that has none.
    Every record stays at its place with its employee, day and in-time,
    and a record that has an out-time is never changed again; no record is
    removed. *)
Theorem ledger_invariant w rq :
  reachable w →
  let att := attendance w in
  let att' := attendance (handle w rq).2 in
  NoDup (record_key <$> att)
  ∧ NoDup (record_key <$> att')
  ∧ ledger_step rq att att'
  ∧ (∀ i r, att !! i = Some r →
       ∃ r', att' !! i = Some r'
             ∧ record_key r' = record_key r
             ∧ rec_in_time r' = rec_in_time r
             ∧ (is_Some (rec_out_time r) → r' = r))
  ∧ (length att ≤ length att')%nat.
Proof.
  intros [rqs ->] att att'.
  assert (Hnodup : NoDup (record_key <$> att)).
  { apply serve_NoDup. simpl. apply NoDup_nil_2. }
  assert (Hstep : ledger_step rq att att') by apply handle_ledger_step.
  split_and!; [done| by eapply ledger_step_NoDup |done| |].
  - intros i r. by apply ledger_step_keeps with rq.
  - destruct Hstep as [->| r -> _ _ | i r data clk _ _ _ _ ->].
    + done.
    + rewrite length_app. simpl. lia.
    + by rewrite length_insert.
Qed.
End Invariant.

(** ** Registration *)

Section Registration.
Context `{Ed25519Lib}.


Lemma api_register_duplicate w data now_iso :
  let emp_id := strip (get_or (reg_emp_id data) "") in
  emp_id ≠ EmptyString →
  strip (get_or (reg_name data) "") ≠ EmptyString →
  emp_id ∈ (employees w).*1 →
  api_register w data now_iso = (Respond (register_duplicate_response emp_id), w).
Proof.
  intros emp_id Hid Hname Hin.
  unfold api_register, py_not, employee_registered. fold emp_id.
  rewrite !bool_decide_eq_false_2 by done. simpl.
  by rewrite bool_decide_eq_true_2.
Qed.

(** A registration that succeeded stored the token: submitted again, it
    is rejected as a duplicate and the state stays as the first one left it. *)
Lemma api_register_twice w data now_iso now_iso' r w1 :
  api_register w data now_iso = (Respond r, w1) →
  jget "success" r = Some (JBool true) →
  api_register w1 data now_iso'
  = (Respond (register_duplicate_response (strip (get_or (reg_emp_id data) ""))), w1).
Proof.
  intros Hfirst Hsuccess. revert Hfirst. unfold api_register at 1.
  destruct (py_not _ || py_not _) eqn:Hreq.
  { intros [= <- <-]. discriminate Hsuccess. }
  destruct (employee_registered _ _) eqn:Hreg.
  { intros [= <- <-]. discriminate Hsuccess. }
  destruct (generate_ed25519_keypair (entropy w)) as [[[sk_b58 pk_b58] sk] pk].
  intros [= _ <-].
  apply orb_false_iff in Hreq as [Hid Hname].
  apply api_register_duplicate; simpl.
  - unfold py_not in Hid. by apply bool_decide_eq_false in Hid.
  - unfold py_not in Hname. by apply bool_decide_eq_false in Hname.
  - rewrite fmap_app. simpl. set_solver.
Qed.

End Registration.

(** ** The properties on a concrete run

    One employee, "E1", registers; the server issues the challenge of slot
    1000; the employee presents it at 1005, 1008, 1009 and 1010. *)

Ltac run :=
  repeat split; vm_compute; first [reflexivity | discriminate | intros; discriminate].

Lemma challenge_freshness_witness :
  passes_origin (H := Demo.lib) Demo.server_pk_b58 Demo.world_E1
    (Demo.submission false) "E1" Demo.ada
  ∧ api_attendance (H := Demo.lib) Demo.server_pk_b58 Demo.world_E1
      (Demo.submission false) (Demo.at_time 1031 "09:00:31")
    = (Respond (failure "QR code expired (age: 31s)"), Demo.world_E1).
Proof.
  assert (Horigin : passes_origin (H := Demo.lib) Demo.server_pk_b58 Demo.world_E1
                      (Demo.submission false) "E1" Demo.ada).
  { repeat split; vm_compute; reflexivity. }
  split; [exact Horigin|].
  apply (challenge_freshness (H := Demo.lib) Demo.server_pk_b58 Demo.world_E1
           (Demo.submission false) (Demo.at_time 1031 "09:00:31") "E1" Demo.ada Horigin).
  vm_compute. reflexivity.
Defined.

Lemma attendance_state_machine_witness :
  (api_attendance (H := Demo.lib) Demo.server_pk_b58 Demo.world_E1
     (Demo.submission false) Demo.c1).1
  = Respond (checkin_response Demo.ada "09:00:05")
  ∧ api_attendance (H := Demo.lib) Demo.server_pk_b58 Demo.checked_in
      (Demo.submission false) Demo.c2
    = (Respond (pending_response Demo.ada Demo.opened "09:00:08"), Demo.checked_in)
  ∧ (api_attendance (H := Demo.lib) Demo.server_pk_b58 Demo.checked_in
       (Demo.submission true) Demo.c3).1
    = Respond (checkout_response Demo.ada Demo.closed "09:00:09")
  ∧ api_attendance (H := Demo.lib) Demo.server_pk_b58 Demo.checked_out
      (Demo.submission false) Demo.c4
    = (Respond (already_out_response Demo.ada Demo.closed "09:00:09"), Demo.checked_out).
Proof.
  destruct (attendance_state_machine (H := Demo.lib) Demo.server_pk_b58 Demo.world_E1
              (Demo.submission false) (Demo.submission false)
              (Demo.submission true) (Demo.submission false)
              Demo.c1 Demo.c2 Demo.c3 Demo.c4 "E1" Demo.ada "2024-01-01")
    as (H1 & _ & _ & _ & H2 & _ & H3 & _ & _ & _ & H4 & _); [run..|].
  split_and!; [exact H1|exact H2|exact H3|exact H4].
Defined.

Lemma second_presentation_not_rejected_witness :
  reachable (H := Demo.lib) Demo.server_pk_b58 Demo.world_E1
  ∧ (api_attendance (H := Demo.lib) Demo.server_pk_b58 Demo.world_E1
       (Demo.submission false) Demo.c1).1
    = Respond (checkin_response Demo.ada "09:00:05")
  ∧ api_attendance (H := Demo.lib) Demo.server_pk_b58 Demo.checked_in
      (Demo.submission false) Demo.c2
    = (Respond (pending_response Demo.ada Demo.opened "09:00:08"), Demo.checked_in)
  ∧ pending_response Demo.ada Demo.opened "09:00:08" ≠ replay_response.
Proof.
  assert (Hreach : reachable (H := Demo.lib) Demo.server_pk_b58 Demo.world_E1).
  { exists [Demo.register_E1]. reflexivity. }
  split; [exact Hreach|].
  destruct (second_presentation_not_rejected (H := Demo.lib) Demo.server_pk_b58
              Demo.world_E1 (Demo.submission false) Demo.c1 Demo.c2 "E1" Demo.ada)
    as (H1 & _ & H2 & H3); [exact Hreach|run..|].
  split_and!; [exact H1|exact H2|exact H3].
Defined.



Lemma ledger_invariant_witness :
  reachable (H := Demo.lib) Demo.server_pk_b58 Demo.checked_in
  ∧ NoDup (record_key <$> attendance Demo.checked_out)
  ∧ ledger_step (Attendance (Demo.submission true) Demo.c3)
      (attendance Demo.checked_in) (attendance Demo.checked_out).
Proof.
  assert (Hreach : reachable (H := Demo.lib) Demo.server_pk_b58 Demo.checked_in).
  { exists [Demo.register_E1; Attendance (Demo.submission false) Demo.c1].
    vm_compute. reflexivity. }
  split; [exact Hreach|].
  destruct (ledger_invariant (H := Demo.lib) Demo.server_pk_b58 Demo.checked_in
              (Attendance (Demo.submission true) Demo.c3) Hreach)
    as (_ & Hnodup & Hstep & _).
  split; [exact Hnodup|exact Hstep].
Defined.




(** * Further properties of the code *)

(** ** Time slots *)

Lemma py_int_lower (z : Z) (x : Q) : (inject_Z z <= x)%Q → z ≤ py_int x.
Proof.
  intros Hle. assert (Hfloor : z ≤ Qfloor x).
  { rewrite <- (Qfloor_Z z). by apply Qfloor_resp_le. }
  unfold py_int. destruct (Qle_bool 0 x); [done|].
  assert (Qfloor x ≤ Qceiling x) by (rewrite Zle_Qle; apply Qle_floor_ceiling).
  lia.
Qed.

Lemma py_int_upper (z : Z) (x : Q) : (x <= inject_Z z)%Q → py_int x ≤ z.
Proof.
  intros Hle. assert (Hceil : Qceiling x ≤ z).
  { rewrite <- (Qceiling_Z z). by apply Qceiling_resp_le. }
  unfold py_int. destruct (Qle_bool 0 x); [|done].
  assert (Qfloor x ≤ Qceiling x) by (rewrite Zle_Qle; apply Qle_floor_ceiling).
  lia.
Qed.

Lemma get_time_slot_in_interval (now : Q) (s : Z) :
  s mod INTERVAL = 0 → (inject_Z s <= now)%Q → (now < inject_Z (s + INTERVAL))%Q →
  get_time_slot now = s.
Proof.
  destruct (get_time_slot_bounds now) as (Hmod & Hlo & Hhi).
  intros Hmod' Hlo' Hhi'.
  assert (H1 : get_time_slot now < s + INTERVAL).
  { rewrite Zlt_Qlt. by eapply Qle_lt_trans. }
  assert (H2 : s < get_time_slot now + INTERVAL).
  { rewrite Zlt_Qlt. by eapply Qle_lt_trans. }
  unfold INTERVAL in *.
  apply Z.mod_divide in Hmod as [a Ha]; [|done].
  apply Z.mod_divide in Hmod' as [b Hb]; [|done].
  lia.
Qed.

(** X1. The slot of a clock reading is the one multiple of [INTERVAL]
    with [slot <= now < slot + INTERVAL]. *)
Theorem get_time_slot_unique (now : Q) (s : Z) :
  get_time_slot now = s ↔
  s mod INTERVAL = 0 ∧ (inject_Z s <= now)%Q ∧ (now < inject_Z (s + INTERVAL))%Q.
Proof.
  split.
  - intros <-. apply get_time_slot_bounds.
  - intros (Hmod & Hlo & Hhi). by apply get_time_slot_in_interval.
Qed.

Section Issuer.
Context `{Ed25519Lib}.
Variable server_private_key : privkey.
Variable server_public_key_b58 : string.

(** X2. Within one slot the issued challenge does not change: two clock
    readings in the same interval [[k * INTERVAL, (k + 1) * INTERVAL)] give
    the same message, signature and slot start [k * INTERVAL]. *)
Theorem generate_qr_data_stable (k : Z) (t1 t2 : Q) :
  (inject_Z (k * INTERVAL) <= t1)%Q → (t1 < inject_Z (k * INTERVAL + INTERVAL))%Q →
  (inject_Z (k * INTERVAL) <= t2)%Q → (t2 < inject_Z (k * INTERVAL + INTERVAL))%Q →
  generate_qr_data server_private_key server_public_key_b58 t1
  = generate_qr_data server_private_key server_public_key_b58 t2
  ∧ qr_timestamp (generate_qr_data server_private_key server_public_key_b58 t1)
    = k * INTERVAL.
Proof.
  intros Hlo1 Hhi1 Hlo2 Hhi2.
  assert (Hmod : (k * INTERVAL) mod INTERVAL = 0) by (by apply Z.mod_mul).
  assert (H1 : get_time_slot t1 = k * INTERVAL) by by apply get_time_slot_in_interval.
  assert (H2 : get_time_slot t2 = k * INTERVAL) by by apply get_time_slot_in_interval.
  unfold generate_qr_data. rewrite H1, H2. done.
Qed.
End Issuer.

(** X3. A challenge issued at clock reading [t] passes the freshness test
    at every presentation time from [t] to [t + 20], and fails it at every
    presentation time from [t + 31] on. *)
Theorem challenge_lifetime (t t' : Q) :
  (t <= t')%Q →
  ((t' <= t + inject_Z 20)%Q →
   qr_expired (py_int t' - get_time_slot t) = false)
  ∧ ((t + inject_Z 31 <= t')%Q →
     qr_expired (py_int t' - get_time_slot t) = true).
Proof.
  intros Hle. destruct (get_time_slot_bounds t) as (_ & Hlo & Hhi).
  set (s := get_time_slot t) in *. unfold INTERVAL in Hhi. split.
  - intros Hwin. apply qr_expired_false_iff. unfold QR_GRACE_PERIOD.
    assert (s ≤ py_int t').
    { apply py_int_lower. by eapply Qle_trans. }
    assert (py_int t' ≤ s + 30).
    { apply py_int_upper. eapply Qle_trans; [exact Hwin|].
      replace (s + 30) with (s + 10 + 20) by lia.
      rewrite (inject_Z_plus (s + 10) 20).
      apply Qplus_le_l. by apply Qlt_le_weak. }
    lia.
  - intros Hlate. apply qr_expired_true_iff. unfold QR_GRACE_PERIOD.
    assert (s + 31 ≤ py_int t').
    { apply py_int_lower. eapply Qle_trans; [|exact Hlate].
      rewrite inject_Z_plus. by apply Qplus_le_l. }
    lia.
Qed.

(** ** Signing and verifying *)

Section RoundTrip.
Context `{Ed25519Lib}.

Lemma verify_signed_message (private_key : privkey) (message : string) :
  signs_correctly private_key message →
  verify_signature (b58encode (ed_public_bytes (ed_public_key private_key)))
    message (sign_message private_key message) = inr true.
Proof.
  intros (Hpk & Hkey & Hsig & Hverify).
  rewrite verify_signature_returns. unfold verify_signature_try, sign_message.
  by rewrite Hpk, Hkey, Hsig, Hverify.
Qed.

(** X4. A message signed by [sign_message] verifies under the base-58
    public key of the signing key, whenever the library handles that key
    and message as Ed25519 and base-58 promise; the same signature is
    rejected, with [false], for any message the library does not verify it
    against. *)
Theorem sign_message_verifies (private_key : privkey) (message : string) :
  signs_correctly private_key message →
  verify_signature (b58encode (ed_public_bytes (ed_public_key private_key)))
    message (sign_message private_key message) = inr true
  ∧ ∀ other,
      ed_verify (ed_public_key private_key)
        (ed_sign private_key (encode_utf8 message)) (encode_utf8 other)
      = inl InvalidSignature →
      verify_signature (b58encode (ed_public_bytes (ed_public_key private_key)))
        other (sign_message private_key message) = inr false.
Proof.
  intros Hsigns. split; [by apply verify_signed_message|].
  destruct Hsigns as (Hpk & Hkey & Hsig & _). intros other Hother.
  rewrite verify_signature_returns. unfold verify_signature_try, sign_message.
  by rewrite Hpk, Hkey, Hsig, Hother.
Qed.
End RoundTrip.

(** ** The registry *)

Lemma find_employee_app emps emps' pk :
  find_employee (emps ++ emps') pk =
    match find_employee emps pk with
    | Some found => Some found
    | None => find_employee emps' pk
    end.
Proof.
  induction emps as [|[eid e] emps IH]; simpl; [done|].
  by case_bool_decide.
Qed.

Lemma lookup_employee_app emps emps' emp_id :
  lookup_employee (emps ++ emps') emp_id =
    match lookup_employee emps emp_id with
    | Some e => Some e
    | None => lookup_employee emps' emp_id
    end.
Proof.
  induction emps as [|[eid e] emps IH]; simpl; [done|].
  by case_bool_decide.
Qed.

Lemma lookup_employee_None emps emp_id :
  lookup_employee emps emp_id = None ↔ emp_id ∉ emps.*1.
Proof.
  induction emps as [|[eid e] emps IH]; simpl.
  - split; [intros _; apply not_elem_of_nil|done].
  - rewrite not_elem_of_cons. case_bool_decide as Heq.
    + split; [done|]. intros [Hne _]. congruence.
    + rewrite IH. split; [intros Hnotin; split; [congruence|done]|by intros [_ ?]].
Qed.

Lemma lookup_employee_Some emps emp_id e :
  NoDup emps.*1 → (emp_id, e) ∈ emps → lookup_employee emps emp_id = Some e.
Proof.
  induction emps as [|[eid e'] emps IH]; simpl.
  - intros _ Hin. by apply elem_of_nil in Hin.
  - intros Hnd Hel. apply NoDup_cons in Hnd as [Hnotin Hnodup].
    apply elem_of_cons in Hel as [[= -> ->]|Hin].
    + by rewrite bool_decide_eq_true_2.
    + case_bool_decide as Heq; [|by apply IH].
      subst. destruct Hnotin. apply list_elem_of_fmap. by exists (emp_id, e).
Qed.

Lemma find_employee_elem emps pk emp_id e :
  find_employee emps pk = Some (emp_id, e) → (emp_id, e) ∈ emps ∧ emp_public_key e = pk.
Proof.
  induction emps as [|[eid e'] emps IH]; simpl; [done|].
  case_bool_decide.
  - intros [= -> ->]. split; [apply elem_of_cons; by left|done].
  - intros Hfind. destruct (IH Hfind) as [Hin Hpk].
    split; [apply elem_of_cons; by right|done].
Qed.

(** X5. The reverse lookup returns the first entry, in registration
    order, that holds the submitted public key, and nothing exactly when no
    entry holds it. *)
Theorem find_employee_first (emps : list (string * employee)) (pk : string) :
  match find_employee emps pk with
  | Some (emp_id, e) =>
      ∃ i, emps !! i = Some (emp_id, e)
           ∧ emp_public_key e = pk
           ∧ ∀ j x, emps !! j = Some x → (j < i)%nat → emp_public_key x.2 ≠ pk
  | None => ∀ x, x ∈ emps → emp_public_key x.2 ≠ pk
  end.
Proof.
  induction emps as [|[eid e] emps IH]; simpl.
  - intros x Hx. by apply elem_of_nil in Hx.
  - case_bool_decide as Hpk.
    + exists 0%nat. split_and!; [done..|]. intros j x _ Hj. lia.
    + destruct (find_employee emps pk) as [[emp_id e']|].
      * destruct IH as (i & Hi & He & Hleast). exists (S i).
        split_and!; [done..|]. intros [|j] x Hx Hj; simplify_eq/=; [done|].
        apply (Hleast j x Hx). lia.
      * intros x [->|Hx]%elem_of_cons; [done|by apply IH].
Qed.

(** [strip] leaves nothing to strip. *)
Lemma lstrip_no_leading_space (s : string) : no_leading_space (lstrip s).
Proof.
  induction s as [|c s IH]; simpl; [done|].
  destruct (py_isspace c) eqn:Hc; [done|]. simpl. done.
Qed.

Lemma lstrip_id (s : string) : no_leading_space s → lstrip s = s.
Proof. destruct s as [|c s]; simpl; [done|]. by intros ->. Qed.

Lemma rstrip_no_leading_space (s : string) :
  no_leading_space s → no_leading_space (rstrip s).
Proof.
  destruct s as [|c s]; simpl; [done|]. intros Hc.
  destruct (rstrip s); simpl; [by rewrite Hc|done].
Qed.

Lemma rstrip_idemp (s : string) : rstrip (rstrip s) = rstrip s.
Proof.
  induction s as [|c s IH]; simpl; [done|].
  destruct (rstrip s) as [|d t] eqn:Hr.
  - destruct (py_isspace c) eqn:Hc; simpl; [done|]. by rewrite Hc.
  - change (rstrip (String c (String d t)) = String c (String d t)).
    simpl. simpl in IH. by rewrite IH.
Qed.

Lemma strip_idemp (s : string) : strip (strip s) = strip s.
Proof.
  unfold strip.
  rewrite (lstrip_id (rstrip (lstrip s))).
  - apply rstrip_idemp.
  - apply rstrip_no_leading_space, lstrip_no_leading_space.
Qed.

Section Registry.
Context `{Ed25519Lib}.
Variable server_public_key_b58 : string.

Abbreviation handle := (handle server_public_key_b58).
Abbreviation serve := (serve server_public_key_b58).
Abbreviation reachable := (reachable server_public_key_b58).

(** The registration that goes through. *)
Lemma api_register_success w data now_iso :
  let emp_id := strip (get_or (reg_emp_id data) "") in
  let name := strip (get_or (reg_name data) "") in
  let public_key_b58 := b58encode (ed_public_bytes (ed_public_key (ed_generate (entropy w)))) in
  let private_key_b58 :=
    b58encode (ed_private_bytes (ed_generate (entropy w))
               ++ ed_public_bytes (ed_public_key (ed_generate (entropy w)))) in
  let entry := {| emp_name := name;
                  emp_email := strip (get_or (reg_email data) "");
                  emp_department := strip (get_or (reg_department data) "");
                  emp_public_key := public_key_b58;
                  emp_registered_at := now_iso |} in
  emp_id ≠ EmptyString → name ≠ EmptyString → emp_id ∉ (employees w).*1 →
  api_register w data now_iso =
    (Respond (register_success_response emp_id name public_key_b58 private_key_b58),
     {| employees := employees w ++ [(emp_id, entry)];
        attendance := attendance w;
        recent_qr_usage := recent_qr_usage w;
        entropy := S (entropy w) |}).
Proof.
  intros emp_id name public_key_b58 private_key_b58 entry Hid Hname Hfresh.
  unfold api_register, py_not, employee_registered.
  fold emp_id name.
  rewrite !bool_decide_eq_false_2 by done. simpl. done.
Qed.

(** A request either leaves the registry and the entropy state, or is a
    registration that goes through. *)
Lemma handle_registry w rq :
  (employees (handle w rq).2 = employees w ∧ entropy (handle w rq).2 = entropy w)
  ∨ ∃ data now_iso,
      rq = Register data now_iso
      ∧ strip (get_or (reg_emp_id data) "") ≠ EmptyString
      ∧ strip (get_or (reg_name data) "") ≠ EmptyString
      ∧ strip (get_or (reg_emp_id data) "") ∉ (employees w).*1.
Proof.
  destruct rq as [data now_iso|data clk]; simpl.
  - unfold api_register, py_not, employee_registered.
    case_bool_decide as Hid; simpl; [by left|].
    case_bool_decide as Hname; simpl; [by left|].
    case_bool_decide as Hin; simpl; [by left|].
    right. by exists data, now_iso.
  - left. by destruct (api_attendance_frame server_public_key_b58 w data clk)
      as (-> & _ & ->).
Qed.

(** X6. A registration that goes through can be looked up afterwards, by
    token and by key: the token maps to the new entry, every other token
    maps to what it mapped to before, and the issued public key identifies
    the new employee unless an earlier entry already holds that key, in
    which case it keeps identifying the earlier one. *)
Theorem register_then_lookup w data now_iso r w' :
  api_register w data now_iso = (Respond r, w') →
  jget "success" r = Some (JBool true) →
  let emp_id := strip (get_or (reg_emp_id data) "") in
  ∃ entry,
    employees w' = employees w ++ [(emp_id, entry)]
    ∧ jget "emp_id" r = Some (JStr emp_id)
    ∧ jget "public_key" r = Some (JStr (emp_public_key entry))
    ∧ lookup_employee (employees w') emp_id = Some entry
    ∧ (∀ other, other ≠ emp_id →
         lookup_employee (employees w') other = lookup_employee (employees w) other)
    ∧ find_employee (employees w') (emp_public_key entry) =
        match find_employee (employees w) (emp_public_key entry) with
        | Some earlier => Some earlier
        | None => Some (emp_id, entry)
        end.
Proof.
  intros Hreg Hsuccess emp_id. subst emp_id.
  revert Hreg Hsuccess. unfold api_register.
  destruct (py_not _ || py_not _); [by intros [= <- <-]|].
  destruct (employee_registered _ _) eqn:Hin; [by intros [= <- <-]|].
  unfold employee_registered in Hin.
  apply bool_decide_eq_false, lookup_employee_None in Hin.
  intros [= <- <-] _. eexists. simpl.
  split_and!; [done..| | |].
  - rewrite lookup_employee_app, Hin. simpl.
    by rewrite bool_decide_eq_true_2.
  - intros other Hother. rewrite lookup_employee_app.
    destruct (lookup_employee (employees w) other); [done|]. simpl.
    by rewrite bool_decide_eq_false_2.
  - rewrite find_employee_app.
    destruct (find_employee (employees w) _); [done|]. simpl.
    by rewrite bool_decide_eq_true_2.
Qed.

(** X15. The private key a registration hands out embeds the public key
    it stores: decoded, its first 32 bytes are the seed and the bytes after
    them encode to the registered public key, provided the seed is 32 bytes
    long and base-58 decoding inverts the encoding of the issued key. *)
Theorem issued_private_key_embeds_public w data now_iso r w' :
  let sk := ed_generate (entropy w) in
  let seed := ed_private_bytes sk in
  let pub := ed_public_bytes (ed_public_key sk) in
  api_register w data now_iso = (Respond r, w') →
  jget "success" r = Some (JBool true) →
  length seed = 32%nat →
  b58decode (b58encode (seed ++ pub)) = inr (seed ++ pub) →
  ∃ private_key_b58 private_bytes entry,
    jget "private_key" r = Some (JStr private_key_b58)
    ∧ b58decode private_key_b58 = inr private_bytes
    ∧ take 32 private_bytes = seed
    ∧ lookup_employee (employees w') (strip (get_or (reg_emp_id data) "")) = Some entry
    ∧ emp_public_key entry = b58encode (drop 32 private_bytes)
    ∧ jget "public_key" r = Some (JStr (emp_public_key entry)).
Proof.
  intros sk seed pub Hreg Hsuccess Hseed Hdecode.
  revert Hreg Hsuccess. unfold api_register.
  destruct (py_not _ || py_not _); [by intros [= <- <-]|].
  destruct (employee_registered _ _) eqn:Hin; [by intros [= <- <-]|].
  unfold employee_registered in Hin.
  apply bool_decide_eq_false, lookup_employee_None in Hin.
  intros [= <- <-] _. simpl.
  eexists _, (seed ++ pub), _. split_and!.
  - done.
  - exact Hdecode.
  - by rewrite take_app_length'.
  - rewrite lookup_employee_app, Hin. simpl. by rewrite bool_decide_eq_true_2.
  - simpl. by rewrite drop_app_length'.
  - done.
Qed.

(** One request keeps the registry well formed. *)
Lemma handle_registry_wf w rq : registry_wf w → registry_wf (handle w rq).2.
Proof.
  intros (Hnodup & Hentropy & Hentries).
  destruct (handle_registry w rq)
    as [[Hemps Hent]|(data & now_iso & -> & Hid & Hname & Hfresh)].
  { unfold registry_wf. by rewrite Hemps, Hent. }
  simpl. rewrite (api_register_success w data now_iso Hid Hname Hfresh).
  unfold registry_wf. simpl. split_and!.
  - rewrite fmap_app. simpl. apply NoDup_app. split_and!; [done| |apply NoDup_singleton].
    intros x Hx ->%list_elem_of_singleton. done.
  - rewrite length_app. simpl. lia.
  - intros i emp_id e [Hi|[Hi Hlast]]%lookup_app_Some; [by eapply Hentries|].
    destruct (i - length (employees w))%nat as [|n] eqn:Hn; [|done].
    simpl in Hlast. injection Hlast as <- <-. simpl.
    split_and!; [done|apply strip_idemp|done|].
    do 4 f_equal. lia.
Qed.

Lemma serve_registry_wf w rqs : registry_wf w → registry_wf (serve w rqs).
Proof.
  revert w. induction rqs as [|rq rqs IH]; intros w Hwf; simpl; [done|].
  by apply IH, handle_registry_wf.
Qed.

(** X7. In every state the server can reach, the registered tokens are
    pairwise distinct, non-empty and free of surrounding whitespace, every
    entry has a non-empty name, exactly one key pair was drawn per entry,
    and the entry at position [i] holds the public key of the [i]-th pair. *)
Theorem reachable_registry_wf w :
  reachable w →
  NoDup (employees w).*1
  ∧ entropy w = length (employees w)
  ∧ ∀ i emp_id e, employees w !! i = Some (emp_id, e) →
      emp_id ≠ EmptyString
      ∧ strip emp_id = emp_id
      ∧ emp_name e ≠ EmptyString
      ∧ emp_public_key e = b58encode (ed_public_bytes (ed_public_key (ed_generate i))).
Proof.
  intros [rqs ->]. apply serve_registry_wf.
  split_and!; [apply NoDup_nil_2|done|]. intros i emp_id e Hi. done.
Qed.

Lemma handle_employees_prefix w rq : employees w `prefix_of` employees (handle w rq).2.
Proof.
  destruct (handle_registry w rq)
    as [[-> _]|(data & now_iso & -> & Hid & Hname & Hfresh)]; [done|].
  simpl. rewrite (api_register_success w data now_iso Hid Hname Hfresh). simpl.
  by apply prefix_app_r.
Qed.

Lemma serve_employees_prefix w rqs : employees w `prefix_of` employees (serve w rqs).
Proof.
  revert w. induction rqs as [|rq rqs IH]; intros w; simpl; [done|].
  etrans; [apply handle_employees_prefix|apply IH].
Qed.

(** X8. The registry only grows at its end: whatever requests follow, a
    registered token keeps its entry, so its public key and profile are
    never changed or removed, and a key keeps identifying the employee it
    identified. *)
Theorem registry_entries_permanent w rqs emp_id e :
  lookup_employee (employees w) emp_id = Some e →
  lookup_employee (employees (serve w rqs)) emp_id = Some e
  ∧ (∀ found, find_employee (employees w) (emp_public_key e) = Some found →
       find_employee (employees (serve w rqs)) (emp_public_key e) = Some found)
  ∧ (length (employees w) ≤ length (employees (serve w rqs)))%nat.
Proof.
  intros Hlookup.
  destruct (serve_employees_prefix w rqs) as [added ->].
  split_and!.
  - by rewrite lookup_employee_app, Hlookup.
  - intros found Hfound. by rewrite find_employee_app, Hfound.
  - rewrite length_app. lia.
Qed.

Lemma handle_ledger_refs w rq :
  NoDup (employees w).*1 → ledger_refs w → ledger_refs (handle w rq).2.
Proof.
  intros Hnodup Hrefs.
  destruct rq as [data now_iso|data clk]; simpl.
  - (* a registration keeps the ledger and every existing entry *)
    intros r Hr. rewrite api_register_attendance in Hr.
    destruct (Hrefs r Hr) as ((e & He & Hname) & Hrest).
    split; [|done]. exists e. split; [|done].
    destruct (handle_employees_prefix w (Register data now_iso)) as [added Hadd].
    simpl in Hadd. by rewrite Hadd, lookup_employee_app, He.
  - destruct (api_attendance_changes_only_verified server_public_key_b58 w data clk)
      as [(emp_id & employee & Hpass)|Hsame]; [|by rewrite Hsame].
    assert (Hfound : lookup_employee (employees w) emp_id = Some employee).
    { destruct Hpass as (((_ & Hfind & _) & _) & _).
      apply find_employee_elem in Hfind as [Hin _].
      by apply lookup_employee_Some. }
    apply api_attendance_verified in Hpass as (resp & _ & ->). simpl.
    unfold mark_attendance.
    destruct (find_record _ _ _) as [[i r0]|] eqn:Hfind.
    + apply find_record_Some_lookup in Hfind as [Hi _].
      destruct (rec_out_time r0) eqn:Hout; [done|].
      destruct (att_confirm_checkout data); [|done].
      intros r Hr. simpl in Hr.
      apply list_elem_of_lookup in Hr as [j Hj].
      apply list_lookup_insert_Some in Hj as [(Hij & Hclosed & _)|[_ Hj]].
      * subst j r. destruct (Hrefs r0) as (Hemp & Hver & _);
          [by eapply list_elem_of_lookup_2|].
        simpl. split_and!; done.
      * apply Hrefs. by eapply list_elem_of_lookup_2.
    + intros r Hr. simpl in Hr.
      apply elem_of_app in Hr as [Hr | ->%list_elem_of_singleton]; [by apply Hrefs|].
      simpl. split_and!; [by exists employee|done..].
Qed.

Lemma serve_ledger_refs w rqs :
  registry_wf w → ledger_refs w → ledger_refs (serve w rqs).
Proof.
  revert w. induction rqs as [|rq rqs IH]; intros w Hwf Hrefs; simpl; [done|].
  apply IH; [by apply handle_registry_wf|].
  apply handle_ledger_refs; [apply Hwf|done].
Qed.

(** X9. In every state the server can reach, each attendance record
    belongs to a registered employee and carries that employee's
    registered name; it is marked verified with status "Present", and its
    out-time and out-timestamp are set together. *)
Theorem reachable_ledger_refs w r :
  reachable w → r ∈ attendance w →
  (∃ e, lookup_employee (employees w) (rec_emp_id r) = Some e
        ∧ rec_employee_name r = emp_name e)
  ∧ rec_verified r = true
  ∧ rec_status r = "Present"
  ∧ (rec_out_time r = None ↔ rec_out_timestamp r = None).
Proof.
  intros [rqs ->] Hr. revert r Hr. apply serve_ledger_refs.
  - split_and!; [apply NoDup_nil_2|done|]. intros i emp_id e Hi. done.
  - intros r Hr. by apply elem_of_nil in Hr.
Qed.
End Registry.

(** ** Responses and writes *)

Lemma set_attendance_changed w att :
  att ≠ attendance w → set_attendance w att ≠ w.
Proof. intros Hne Heq. apply Hne. by apply (f_equal attendance) in Heq. Qed.

Lemma app_singleton_ne {A} (l : list A) (x : A) : l ++ [x] ≠ l.
Proof.
  intros Heq. apply (f_equal length) in Heq. rewrite length_app in Heq.
  simpl in Heq. lia.
Qed.

Lemma close_record_changed (att : list attendance_record) (i : nat) r clk :
  att !! i = Some r → rec_out_time r = None → <[i := close_record r clk]> att ≠ att.
Proof.
  intros Hi Hopen Heq. apply (f_equal (.!! i)) in Heq.
  rewrite list_lookup_insert_eq in Heq by (by eapply lookup_lt_Some).
  rewrite Hi in Heq. injection Heq as Heq.
  apply (f_equal rec_out_time) in Heq. simpl in Heq. congruence.
Qed.

Section Responses.
Context `{Ed25519Lib}.
Variable server_public_key_b58 : string.

Abbreviation handle := (handle server_public_key_b58).

End Responses.

(** ** The replay table *)

(** X11. Once the use of a slot by an employee has been recorded at time
    [t], the replay test at time [t'] answers for that employee and slot
    whether [t' - t] is below the reuse window, unless [confirm_checkout]
    is set; for every other employee or slot it answers as before. *)
Theorem track_then_replayed usage emp_id slot t confirm emp_id' slot' t' :
  qr_replayed (track_qr_usage usage emp_id slot t) confirm emp_id' slot' t' =
    if bool_decide (emp_id' = emp_id ∧ slot' = slot)
    then negb confirm && (t' - t <? QR_REUSE_WINDOW)
    else qr_replayed usage confirm emp_id' slot' t'.
Proof.
  unfold qr_replayed, track_qr_usage.
  destruct confirm; simpl; [by case_bool_decide|].
  case_bool_decide as Hsame.
  - destruct Hsame as [-> ->].
    rewrite lookup_insert_eq, lookup_insert_eq. done.
  - destruct (decide (emp_id' = emp_id)) as [->|Hemp].
    + assert (Hslot : slot' ≠ slot) by naive_solver.
      rewrite lookup_insert_eq, lookup_insert_ne by done.
      destruct (usage !! emp_id) as [slots|] eqn:Hu; simpl.
      * by rewrite Hu.
      * rewrite lookup_insert_eq. simpl. by rewrite lookup_empty.
    + rewrite lookup_insert_ne by done.
      destruct (usage !! emp_id) as [slots|] eqn:Hu; [done|].
      by rewrite lookup_insert_ne.
Qed.

(** ** Whole runs of the protocol *)

Section Protocol.
Context `{Ed25519Lib}.
Variable server_private_key : privkey.
Variable server_public_key_b58 : string.

Abbreviation api_attendance := (api_attendance server_public_key_b58).
Abbreviation passes_verification := (passes_verification server_public_key_b58).
Abbreviation reachable := (reachable server_public_key_b58).
Abbreviation generate_qr_data :=
  (generate_qr_data server_private_key server_public_key_b58).

(** A submission built by the scan page from a presented challenge
    passes every verification step when the challenge names this server
    and carries its signature, the holder's key is registered, and the
    timestamp field is within the grace period. *)
Lemma presentation_passes w (presented : qr_data) clk private_key confirm
    emp_id employee :
  let data := honest_submission presented private_key confirm in
  let public_key_b58 := b58encode (ed_public_bytes (ed_public_key private_key)) in
  reachable w →
  server_public_key_b58 = b58encode (ed_public_bytes (ed_public_key server_private_key)) →
  qr_server_public_key presented = server_public_key_b58 →
  qr_signature presented = sign_message server_private_key (qr_message presented) →
  signs_correctly server_private_key (qr_message presented) →
  signs_correctly private_key (qr_message presented) →
  find_employee (employees w) public_key_b58 = Some (emp_id, employee) →
  strip public_key_b58 = public_key_b58 →
  public_key_b58 ≠ EmptyString →
  sign_message private_key (qr_message presented) ≠ EmptyString →
  Z.abs (py_int (clk_time clk) - qr_timestamp presented) ≤ QR_GRACE_PERIOD →
  passes_verification w data clk emp_id employee.
Proof.
  intros data public_key_b58 Hreach Hserver Hkey Hsigned Hsigns_server Hsigns
    Hfind Hstrip Hpk Hsig Hfresh.
  unfold passes_verification, passes_all_but_replay, passes_origin,
    missing_required_data, sub_public_key, sub_message, sub_signature,
    sub_timestamp, sub_server_key, py_not. simpl.
  fold public_key_b58. rewrite Hstrip, Hsigned.
  split_and!.
  - by rewrite !bool_decide_eq_false_2.
  - done.
  - done.
  - rewrite Hserver at 1. by apply verify_signed_message.
  - by apply qr_expired_false_iff.
  - by apply verify_signed_message.
  - by apply (reachable_never_replayed server_public_key_b58).
Qed.

(** X12. An employee whose key is registered and who presents the
    challenge issued at [t], signed with that key, within the grace period
    of its slot, passes every verification step on a running server: the
    answer is the one of the attendance branches (check-in, pending,
    check-out or already checked out), never a verification failure. *)
Theorem honest_presentation_accepted w t clk private_key confirm emp_id employee :
  let challenge := generate_qr_data t in
  let data := honest_submission challenge private_key confirm in
  let public_key_b58 := b58encode (ed_public_bytes (ed_public_key private_key)) in
  reachable w →
  server_public_key_b58 = b58encode (ed_public_bytes (ed_public_key server_private_key)) →
  signs_correctly server_private_key (qr_message challenge) →
  signs_correctly private_key (qr_message challenge) →
  find_employee (employees w) public_key_b58 = Some (emp_id, employee) →
  strip public_key_b58 = public_key_b58 →
  public_key_b58 ≠ EmptyString →
  sign_message private_key (qr_message challenge) ≠ EmptyString →
  Z.abs (py_int (clk_time clk) - get_time_slot t) ≤ QR_GRACE_PERIOD →
  passes_verification w data clk emp_id employee
  ∧ ∃ r, (mark_attendance w confirm emp_id employee (get_time_slot t) clk).1 = Some r
         ∧ api_attendance w data clk =
             (Respond r, (mark_attendance w confirm emp_id employee (get_time_slot t) clk).2).
Proof.
  intros challenge data public_key_b58 Hreach Hserver Hsigns_server Hsigns
    Hfind Hstrip Hpk Hsig Hfresh.
  assert (Hpass : passes_verification w data clk emp_id employee)
    by by apply presentation_passes.
  split; [done|].
  by apply api_attendance_verified in Hpass.
Qed.

(** X16. Freshness is decided by the [timestamp] field of the submitted
    challenge alone; the slot written in the signed message is not
    compared with it.  A challenge issued at any time [t], presented with
    its message and signature and with a timestamp field within the grace
    period of the presentation time, passes every verification step. *)
Theorem timestamp_field_decides_freshness w t ts clk private_key confirm
    emp_id employee :
  let issued := generate_qr_data t in
  let presented := {| qr_message := qr_message issued;
                      qr_signature := qr_signature issued;
                      qr_timestamp := ts;
                      qr_server_public_key := qr_server_public_key issued |} in
  let data := honest_submission presented private_key confirm in
  let public_key_b58 := b58encode (ed_public_bytes (ed_public_key private_key)) in
  reachable w →
  server_public_key_b58 = b58encode (ed_public_bytes (ed_public_key server_private_key)) →
  signs_correctly server_private_key (qr_message issued) →
  signs_correctly private_key (qr_message issued) →
  find_employee (employees w) public_key_b58 = Some (emp_id, employee) →
  strip public_key_b58 = public_key_b58 →
  public_key_b58 ≠ EmptyString →
  sign_message private_key (qr_message issued) ≠ EmptyString →
  Z.abs (py_int (clk_time clk) - ts) ≤ QR_GRACE_PERIOD →
  passes_verification w data clk emp_id employee
  ∧ ∃ r, (mark_attendance w confirm emp_id employee ts clk).1 = Some r
         ∧ api_attendance w data clk =
             (Respond r, (mark_attendance w confirm emp_id employee ts clk).2).
Proof.
  intros issued presented data public_key_b58 Hreach Hserver Hsigns_server Hsigns
    Hfind Hstrip Hpk Hsig Hfresh.
  assert (Hpass : passes_verification w data clk emp_id employee)
    by by apply presentation_passes.
  split; [done|].
  by apply api_attendance_verified in Hpass.
Qed.

(** X13. A submission touches at most the record of the employee its key
    identifies for the current day: every record of another employee or of
    another day is where and what it was. *)
Theorem other_records_untouched w data clk i r :
  attendance w !! i = Some r →
  (∀ emp_id employee,
     find_employee (employees w) (sub_public_key data) = Some (emp_id, employee) →
     record_key r ≠ (emp_id, clk_date clk)) →
  attendance (api_attendance w data clk).2 !! i = Some r.
Proof.
  intros Hi Hother.
  destruct (api_attendance_changes_only_verified server_public_key_b58 w data clk)
    as [(emp_id & employee & Hpass)|Hsame]; [|by rewrite Hsame].
  assert (Hkey : record_key r ≠ (emp_id, clk_date clk)).
  { apply (Hother emp_id employee). by destruct Hpass as (((_ & Hfind & _) & _) & _). }
  apply api_attendance_verified in Hpass as (resp & _ & ->). simpl.
  unfold mark_attendance.
  destruct (find_record _ _ _) as [[j r0]|] eqn:Hfind.
  - apply find_record_Some_lookup in Hfind as [Hj Hkey0].
    destruct (rec_out_time r0); [done|].
    destruct (att_confirm_checkout data); [|done]. simpl.
    rewrite list_lookup_insert_ne; [done|].
    intros ->. rewrite Hi in Hj. congruence.
  - simpl. by apply lookup_app_l_Some.
Qed.
End Protocol.

(** ** Server start-up *)

Section Restart.
Context `{Ed25519Lib}.
Variable ed_from_private_bytes : list Byte.byte → exc + privkey.

Abbreviation load_or_create_server_keys :=
  (load_or_create_server_keys ed_from_private_bytes).

(** X14. The first start writes the new key pair to the key file, the
    private key as the 32-byte seed followed by the 32-byte public key; a
    later start reads the file back to the same strings and the same key
    objects, without writing the file or drawing a key, whenever base-58
    decoding and [from_private_bytes] invert what produced the stored key. *)
Theorem server_keys_survive_restart (entropy entropy' : nat) :
  let sk := ed_generate entropy in
  let seed := ed_private_bytes sk in
  let pub := ed_public_bytes (ed_public_key sk) in
  length seed = 32%nat → length pub = 32%nat →
  b58decode (b58encode (seed ++ pub)) = inr (seed ++ pub) →
  ed_from_private_bytes seed = inr sk →
  let keys := (b58encode (seed ++ pub), b58encode pub, sk, ed_public_key sk) in
  let file := Some (b58encode (seed ++ pub), b58encode pub) in
  load_or_create_server_keys None entropy = inr (keys, file, S entropy)
  ∧ load_or_create_server_keys file entropy' = inr (keys, file, entropy').
Proof.
  intros sk seed pub Hseed Hpub Hdecode Hfrom keys file.
  split; [done|].
  unfold load_or_create_server_keys, file. simpl. rewrite Hdecode.
  rewrite bool_decide_eq_true_2 by (rewrite length_app; lia).
  rewrite take_app_length' by done. by rewrite Hfrom.
Qed.

End Restart.

(** ** The further properties on the concrete run *)

Lemma generate_qr_data_stable_witness :
  generate_qr_data (H := Demo.lib) Demo.server_sk Demo.server_pk_b58 (inject_Z 1000)
  = generate_qr_data (H := Demo.lib) Demo.server_sk Demo.server_pk_b58 (10057 # 10).
Proof.
  refine (proj1 (generate_qr_data_stable (H := Demo.lib) Demo.server_sk
                   Demo.server_pk_b58 100 (inject_Z 1000) (10057 # 10) _ _ _ _));
    run.
Defined.

Lemma challenge_lifetime_witness :
  qr_expired (py_int (inject_Z 1023) - get_time_slot (inject_Z 1003)) = false
  ∧ qr_expired (py_int (inject_Z 1034) - get_time_slot (inject_Z 1003)) = true.
Proof.
  split.
  - refine (proj1 (challenge_lifetime (inject_Z 1003) (inject_Z 1023) _) _); run.
  - refine (proj2 (challenge_lifetime (inject_Z 1003) (inject_Z 1034) _) _); run.
Defined.

Lemma sign_message_verifies_witness :
  verify_signature (H := Demo.lib) Demo.emp_pk_b58 (qr_message Demo.challenge)
    (sign_message (H := Demo.lib) Demo.emp_sk (qr_message Demo.challenge))
  = inr true.
Proof.
  refine (proj1 (sign_message_verifies (H := Demo.lib) Demo.emp_sk
                   (qr_message Demo.challenge) _)).
  run.
Defined.

Lemma register_then_lookup_witness :
  ∃ entry, lookup_employee (employees Demo.world_E1) "E1" = Some entry
           ∧ find_employee (employees Demo.world_E1) (emp_public_key entry)
             = Some ("E1", entry).
Proof.
  destruct (register_then_lookup (H := Demo.lib) initial_world Demo.register_E1_data
              "2024-01-01T09:00:00"
              (register_success_response "E1" "Ada" Demo.emp_pk_b58
                 (Demo.encode (Demo.emp_sk ++ Demo.public_of Demo.emp_sk)))
              Demo.world_E1)
    as (entry & _ & _ & _ & Hlookup & _ & Hfind); [run..|].
  exists entry. split; [exact Hlookup|exact Hfind].
Defined.

Lemma reachable_registry_wf_witness :
  NoDup (employees Demo.checked_in).*1
  ∧ entropy Demo.checked_in = length (employees Demo.checked_in).
Proof.
  destruct (reachable_registry_wf (H := Demo.lib) Demo.server_pk_b58 Demo.checked_in)
    as (Hnodup & Hentropy & _).
  - exists [Demo.register_E1; Attendance (Demo.submission false) Demo.c1].
    vm_compute. reflexivity.
  - split; [exact Hnodup|exact Hentropy].
Defined.

Lemma registry_entries_permanent_witness :
  lookup_employee
    (employees
       (serve (H := Demo.lib) Demo.server_pk_b58 Demo.world_E1
          [Attendance (Demo.submission false) Demo.c1;
           Register {| reg_emp_id := Some "E2"; reg_name := Some "Bob";
                       reg_email := None; reg_department := None |}
                    "2024-01-01T10:00:00";
           Register Demo.register_E1_data "2024-01-01T11:00:00"]))
    "E1"
  = Some Demo.ada.
Proof.
  refine (proj1 (registry_entries_permanent (H := Demo.lib) Demo.server_pk_b58
                   Demo.world_E1 _ "E1" Demo.ada _)).
  run.
Defined.

Lemma reachable_ledger_refs_witness :
  ∃ e, lookup_employee (employees Demo.checked_in) (rec_emp_id Demo.opened) = Some e
       ∧ rec_employee_name Demo.opened = emp_name e.
Proof.
  refine (proj1 (reachable_ledger_refs (H := Demo.lib) Demo.server_pk_b58
                   Demo.checked_in Demo.opened _ _)).
  - exists [Demo.register_E1; Attendance (Demo.submission false) Demo.c1].
    vm_compute. reflexivity.
  - apply list_elem_of_here.
Defined.

Lemma honest_presentation_accepted_witness :
  passes_verification (H := Demo.lib) Demo.server_pk_b58 Demo.world_E1
    (honest_submission (H := Demo.lib)
       (generate_qr_data (H := Demo.lib) Demo.server_sk Demo.server_pk_b58
          (inject_Z 1000))
       Demo.emp_sk false)
    Demo.c1 "E1" Demo.ada.
Proof.
  refine (proj1 (honest_presentation_accepted (H := Demo.lib) Demo.server_sk
                   Demo.server_pk_b58 Demo.world_E1 (inject_Z 1000) Demo.c1
                   Demo.emp_sk false "E1" Demo.ada _ _ _ _ _ _ _ _ _)); try run.
  exists [Demo.register_E1]. reflexivity.
Defined.

Lemma other_records_untouched_witness :
  attendance
    (api_attendance (H := Demo.lib) Demo.server_pk_b58 Demo.checked_out
       (Demo.submission false)
       {| clk_time := inject_Z 1005; clk_slot_time := inject_Z 1005;
          clk_date := "2024-01-02"; clk_hms := "00:00:05";
          clk_iso := "2024-01-02T00:00:05" |}).2 !! 0%nat
  = Some Demo.closed.
Proof.
  refine (other_records_untouched (H := Demo.lib) Demo.server_pk_b58
            Demo.checked_out (Demo.submission false) _ 0%nat Demo.closed _ _).
  - reflexivity.
  - intros emp_id employee _. vm_compute. intros Heq. discriminate Heq.
Defined.

Lemma server_keys_survive_restart_witness :
  load_or_create_server_keys (H := Demo.lib) demo_from_private_bytes
    (Some (Demo.encode (Demo.server_sk ++ Demo.public_of Demo.server_sk),
           Demo.server_pk_b58)) 3
  = inr ((Demo.encode (Demo.server_sk ++ Demo.public_of Demo.server_sk),
          Demo.server_pk_b58, Demo.server_sk, Demo.public_of Demo.server_sk),
         Some (Demo.encode (Demo.server_sk ++ Demo.public_of Demo.server_sk),
               Demo.server_pk_b58),
         3%nat).
Proof.
  refine (proj2 (server_keys_survive_restart (H := Demo.lib) demo_from_private_bytes
                   57 3 _ _ _ _)); run.
Defined.

Lemma timestamp_field_decides_freshness_witness :
  passes_verification (H := Demo.lib) Demo.server_pk_b58 Demo.world_E1
    (honest_submission (H := Demo.lib)
       {| qr_message :=
            qr_message (generate_qr_data (H := Demo.lib) Demo.server_sk
                          Demo.server_pk_b58 (inject_Z 0));
          qr_signature :=
            qr_signature (generate_qr_data (H := Demo.lib) Demo.server_sk
                            Demo.server_pk_b58 (inject_Z 0));
          qr_timestamp := 1000;
          qr_server_public_key :=
            qr_server_public_key (generate_qr_data (H := Demo.lib) Demo.server_sk
                                    Demo.server_pk_b58 (inject_Z 0)) |}
       Demo.emp_sk false)
    Demo.c1 "E1" Demo.ada.
Proof.
  refine (proj1 (timestamp_field_decides_freshness (H := Demo.lib) Demo.server_sk
                   Demo.server_pk_b58 Demo.world_E1 (inject_Z 0) 1000 Demo.c1
                   Demo.emp_sk false "E1" Demo.ada _ _ _ _ _ _ _ _ _)); try run.
  exists [Demo.register_E1]. reflexivity.
Defined.

Lemma issued_private_key_embeds_public_witness :
  ∃ private_bytes entry,
    Demo.decode (Demo.encode (Demo.emp_sk ++ Demo.public_of Demo.emp_sk))
    = inr private_bytes
    ∧ lookup_employee (employees Demo.world_E1) "E1" = Some entry
    ∧ emp_public_key entry = Demo.encode (drop 32 private_bytes).
Proof.
  destruct (issued_private_key_embeds_public (H := Demo.lib) initial_world
              Demo.register_E1_data "2024-01-01T09:00:00"
              (register_success_response "E1" "Ada" Demo.emp_pk_b58
                 (Demo.encode (Demo.emp_sk ++ Demo.public_of Demo.emp_sk)))
              Demo.world_E1)
    as (sk_b58 & private_bytes & entry & Hkey & Hdecode & _ & Hlookup & Hpub & _);
    [run..|].
  injection Hkey as <-.
  exists private_bytes, entry. split_and!; [exact Hdecode|exact Hlookup|exact Hpub].
Defined.
